(** * Thermostat environments of [thermostat-response/]

    A shallow embedding of the three [ThermostatEnvironment] classes
    (the bang-bang environment, the max start-ups environment and the
    max start-ups environment with explicit state) and of the free
    function [respond], followed by the properties of their [reset],
    [response], [reward_compute] and [execute] methods.

    Modelling conventions.
    - A Python [float] is read as a real number ([R]); the decimal
      literals [0.5], [0.1], [3.0], ... denote the corresponding rationals
      and [math.exp] is the real exponential.
    - A Python [int] is a [Z]; [len(l)] is [Z.of_nat (length l)].
    - A method is a function from the object's fields before the call to
      the fields after it, paired with what the call returns or raises.
    - [np.random.random(size=(1,))] is an input of [reset]: the value the
      generator hands out, a real of [[0,1)].
    - [tau] is a field, set to [3.0] by every [__init__] and assigned by
      no method; [-1.0 / self.tau] is the division of the reals, and the
      properties that depend on it assume [0 < tau]. *)

From Stdlib Require Import Reals Lra Lia ZArith List Bool.
Import ListNotations.

Open Scope Z_scope.
Open Scope R_scope.

(** ** What a call produces *)

(** The only exception the methods raise themselves: a failed [assert]. *)
Inductive exn : Type :=
| AssertionError.

Inductive outcome (A : Type) : Type :=
| Returned (a : A)
| Raised (e : exn).
Arguments Returned {A} a.
Arguments Raised {A} e.

(** [assert actions == 0 or actions == 1] *)
Definition valid_action (actions : Z) : bool :=
  (actions =? 0)%Z || (actions =? 1)%Z.

(** ** thermostatic-response-function.ipynb *)

(** [def respond(action, current_temp, tau)] *)
Definition respond (action : Z) (current_temp tau : R) : R :=
  IZR action + (current_temp - IZR action) * exp (- 1.0 / tau).


(** ** thermostatic-response-function.ipynb, the simulation cell *)

(** [arr[i] = v] on an array, for an index below its size (the cell only
    writes at [i] in [range(sAction.size)], the size of [sResponse]). *)
Fixpoint set_item (arr : list R) (i : nat) (v : R) : list R :=
  match arr, i with
  | [], _ => []
  | _ :: arr', O => v :: arr'
  | x :: arr', S i' => x :: set_item arr' i' v
  end.

(** One turn of [for i in range(sAction.size)]. *)
Definition response_loop_body (sAction : list Z) (sResponse : list R)
           (i : nat) : list R :=
  let last_response :=
    if (i =? 0)%nat then 0 else nth (i - 1) sResponse 0 in
  set_item sResponse i (respond (nth i sAction 0%Z) last_response 3.0).

(** [sResponse = np.zeros(sAction.size)] followed by the loop. *)
Definition response_series (sAction : list Z) : list R :=
  fold_left (response_loop_body sAction)
            (seq 0 (length sAction))
            (repeat 0 (length sAction)).

(** The temperatures reached one after the other from [last], as a
    recursion on the actions. *)
Fixpoint respond_scan (last : R) (tau : R) (acts : list Z) : list R :=
  match acts with
  | [] => []
  | a :: acts' =>
      let T := respond a last tau in
      T :: respond_scan T tau acts'
  end.

(** ** thermostat-environment.ipynb *)

Module V1.

Record Env : Type := mkEnv {
  tau : R;
  current_temp : R;
  timestep : Z
}.

(** [__init__] *)
Definition init : Env :=
  {| tau := 3.0; current_temp := 0.0; timestep := 0 |}.

Definition max_episode_timesteps (self : Env) : Z := 5.

(** [reset]: the sample is returned, the temperature is set to [0.0]. *)
Definition reset (self : Env) (sample : R) : Env * R :=
  let state := sample in
  let self := {| tau := tau self; current_temp := 0.0;
                 timestep := timestep self |} in
  let self := {| tau := tau self; current_temp := current_temp self;
                 timestep := 0 |} in
  (self, state).

Definition response (self : Env) (action : Z) : R :=
  IZR action + (current_temp self - IZR action) * exp (- 1.0 / tau self).

Definition reward_compute (self : Env) : R :=
  let delta := Rabs (current_temp self - 0.5) in
  if Rlt_dec delta 0.1 then 0 else - delta + 0.1.

Definition execute (self : Env) (actions : Z)
  : Env * outcome (R * bool * R) :=
  if negb (valid_action actions) then (self, Raised AssertionError) else
  let self := {| tau := tau self; current_temp := current_temp self;
                 timestep := timestep self + 1 |} in
  let self := {| tau := tau self; current_temp := response self actions;
                 timestep := timestep self |} in
  let reward := reward_compute self in
  let terminal := false in
  let terminal :=
    if (timestep self >? max_episode_timesteps self)%Z then true
    else terminal in
  (self, Returned (current_temp self, terminal, reward)).

End V1.

(** ** thermostatic-control-02-max-startups.ipynb *)

Module V2.

Record Env : Type := mkEnv {
  tau : R;
  current_temp : R;
  timestep : Z;
  max_timestep : Z;
  exceed_toggle_on_reward : R;
  last_heater_state : Z;
  max_toggle_ons : Z;
  window_toggle_ons : Z;
  off_to_on : list Z
}.

(** [__init__] *)
Definition init : Env :=
  {| tau := 3.0; current_temp := 0.0; timestep := 0;
     max_timestep := 200; exceed_toggle_on_reward := - 50.0;
     last_heater_state := 0; max_toggle_ons := 3;
     window_toggle_ons := 20; off_to_on := [] |}.

(** Assignments [self.f = v]. *)
Definition set_current_temp (self : Env) (v : R) : Env :=
  mkEnv (tau self) v (timestep self) (max_timestep self)
        (exceed_toggle_on_reward self) (last_heater_state self)
        (max_toggle_ons self) (window_toggle_ons self) (off_to_on self).
Definition set_timestep (self : Env) (v : Z) : Env :=
  mkEnv (tau self) (current_temp self) v (max_timestep self)
        (exceed_toggle_on_reward self) (last_heater_state self)
        (max_toggle_ons self) (window_toggle_ons self) (off_to_on self).
Definition set_last_heater_state (self : Env) (v : Z) : Env :=
  mkEnv (tau self) (current_temp self) (timestep self) (max_timestep self)
        (exceed_toggle_on_reward self) v
        (max_toggle_ons self) (window_toggle_ons self) (off_to_on self).
Definition set_off_to_on (self : Env) (v : list Z) : Env :=
  mkEnv (tau self) (current_temp self) (timestep self) (max_timestep self)
        (exceed_toggle_on_reward self) (last_heater_state self)
        (max_toggle_ons self) (window_toggle_ons self) v.

Definition max_episode_timesteps (self : Env) : Z := max_timestep self.

Definition reset (self : Env) (sample : R) : Env * R :=
  let self := set_timestep self 0 in
  let self := set_last_heater_state self 0 in
  let self := set_off_to_on self [] in
  let self := set_current_temp self sample in
  (self, current_temp self).

Definition response (self : Env) (action : Z) : R :=
  IZR action + (current_temp self - IZR action) * exp (- 1.0 / tau self).

Definition reward_compute (self : Env) : R :=
  let delta := Rabs (current_temp self - 0.5) in
  if Rlt_dec delta 0.1 then 0 else - delta + 0.1.

(** [[e for e in self.off_to_on
      if self.timestep - e <= self.window_toggle_ons]] *)
Definition window_events (self : Env) : list Z :=
  filter (fun e => (timestep self - e <=? window_toggle_ons self)%Z)
         (off_to_on self).

Definition execute (self : Env) (actions : Z)
  : Env * outcome (R * bool * R) :=
  if negb (valid_action actions) then (self, Raised AssertionError) else
  let self := set_timestep self (timestep self + 1) in
  let self := set_current_temp self (response self actions) in
  let self :=
    if (actions =? 1)%Z && (last_heater_state self =? 0)%Z
    then set_off_to_on self (off_to_on self ++ [timestep self])
    else self in
  let self := set_last_heater_state self actions in
  let lstWindowEvents := window_events self in
  if (Z.of_nat (length lstWindowEvents) >? max_toggle_ons self)%Z
  then (self, Returned (current_temp self, true,
                        exceed_toggle_on_reward self))
  else if (timestep self >? max_episode_timesteps self)%Z
  then (self, Returned (current_temp self, true, reward_compute self))
  else (self, Returned (current_temp self, false, reward_compute self)).

End V2.

(** ** thermostatic-control-03-max-startups-explicit-state.ipynb *)

Module V3.

Record Env : Type := mkEnv {
  tau : R;
  current_temp : R;
  timestep : Z;
  max_timestep : Z;
  exceed_toggle_on_reward : R;
  last_heater_state : Z;
  max_toggle_ons : Z;
  toggle_ons_left : Z;
  window_toggle_ons : Z;
  off_to_on : list Z
}.

(** [__init__] *)
Definition init : Env :=
  {| tau := 3.0; current_temp := 0.0; timestep := 0;
     max_timestep := 100; exceed_toggle_on_reward := - 10.0;
     last_heater_state := 0; max_toggle_ons := 3;
     toggle_ons_left := 3;
     window_toggle_ons := 10; off_to_on := [] |}.

(** Assignments [self.f = v]. *)
Definition set_current_temp (self : Env) (v : R) : Env :=
  mkEnv (tau self) v (timestep self) (max_timestep self)
        (exceed_toggle_on_reward self) (last_heater_state self)
        (max_toggle_ons self) (toggle_ons_left self)
        (window_toggle_ons self) (off_to_on self).
Definition set_timestep (self : Env) (v : Z) : Env :=
  mkEnv (tau self) (current_temp self) v (max_timestep self)
        (exceed_toggle_on_reward self) (last_heater_state self)
        (max_toggle_ons self) (toggle_ons_left self)
        (window_toggle_ons self) (off_to_on self).
Definition set_last_heater_state (self : Env) (v : Z) : Env :=
  mkEnv (tau self) (current_temp self) (timestep self) (max_timestep self)
        (exceed_toggle_on_reward self) v
        (max_toggle_ons self) (toggle_ons_left self)
        (window_toggle_ons self) (off_to_on self).
Definition set_toggle_ons_left (self : Env) (v : Z) : Env :=
  mkEnv (tau self) (current_temp self) (timestep self) (max_timestep self)
        (exceed_toggle_on_reward self) (last_heater_state self)
        (max_toggle_ons self) v
        (window_toggle_ons self) (off_to_on self).
Definition set_off_to_on (self : Env) (v : list Z) : Env :=
  mkEnv (tau self) (current_temp self) (timestep self) (max_timestep self)
        (exceed_toggle_on_reward self) (last_heater_state self)
        (max_toggle_ons self) (toggle_ons_left self)
        (window_toggle_ons self) v.

Definition max_episode_timesteps (self : Env) : Z := max_timestep self.

(** [np.array([self.current_temp, self.toggle_ons_left], dtype=np.float)] *)
Definition observation (self : Env) : R * R :=
  (current_temp self, IZR (toggle_ons_left self)).

Definition reset (self : Env) (sample : R) : Env * (R * R) :=
  let self := set_timestep self 0 in
  let self := set_last_heater_state self 0 in
  let self := set_off_to_on self [] in
  let self := set_toggle_ons_left self (max_toggle_ons self) in
  let self := set_current_temp self sample in
  (self, observation self).

Definition response (self : Env) (action : Z) : R :=
  IZR action + (current_temp self - IZR action) * exp (- 1.0 / tau self).

Definition reward_compute (self : Env) : R :=
  let delta := Rabs (current_temp self - 0.5) in
  if Rlt_dec delta 0.1 then 1.0 else - delta + 0.1.

(** [[e for e in self.off_to_on
      if self.timestep - e <= self.window_toggle_ons]] *)
Definition window_events (self : Env) : list Z :=
  filter (fun e => (timestep self - e <=? window_toggle_ons self)%Z)
         (off_to_on self).

Definition execute (self : Env) (actions : Z)
  : Env * outcome ((R * R) * bool * R) :=
  if negb (valid_action actions) then (self, Raised AssertionError) else
  let self := set_timestep self (timestep self + 1) in
  let self := set_current_temp self (response self actions) in
  let self :=
    if (actions =? 1)%Z && (last_heater_state self =? 0)%Z
    then set_off_to_on self (off_to_on self ++ [timestep self])
    else self in
  let self := set_last_heater_state self actions in
  let lstWindowEvents := window_events self in
  let self :=
    set_toggle_ons_left self
      (max_toggle_ons self - Z.of_nat (length lstWindowEvents)) in
  if (toggle_ons_left self <? 0)%Z
  then (self, Returned (observation self, false,
                        exceed_toggle_on_reward self))
  else if (timestep self >? max_episode_timesteps self)%Z
  then (self, Returned (observation self, true, reward_compute self))
  else (self, Returned (observation self, false, reward_compute self)).

End V3.

(** ** The driving loop: consecutive [execute] calls, no [reset] between *)

Section Driver.
Context {Env Out : Type}.
Variable execute : Env -> Z -> Env * outcome Out.

(** The object after the calls. *)
Definition run_state (self : Env) (acts : list Z) : Env :=
  fold_left (fun s a => fst (execute s a)) acts self.

(** What each call produced, in order. *)
Fixpoint run_trace (self : Env) (acts : list Z) : list (outcome Out) :=
  match acts with
  | [] => []
  | a :: acts' =>
      let r := execute self a in
      snd r :: run_trace (fst r) acts'
  end.
End Driver.

(** The terminal flag of what a call produced, if it returned. *)
Definition terminal_of {O : Type} (r : outcome (O * bool * R)) : option bool :=
  match r with
  | Returned (_, terminal, _) => Some terminal
  | Raised _ => None
  end.

Definition reward_of {O : Type} (r : outcome (O * bool * R)) : option R :=
  match r with
  | Returned (_, _, reward) => Some reward
  | Raised _ => None
  end.

(** ** Specification-side vocabulary *)

(** Number of recorded start-ups [e] of [hist] that lie in the window of
    width [w] ending at [now], left edge included: [now - w <= e]. *)
Fixpoint startups_in_window (now w : Z) (hist : list Z) : Z :=
  match hist with
  | [] => 0
  | e :: hist' =>
      (if (now - w <=? e)%Z then 1 else 0) + startups_in_window now w hist'
  end%Z.

(** The start-up history once a call with [actions] has been made at the
    (already incremented) time [now]. *)
Definition record_startup (last_heater_state actions now : Z)
           (hist : list Z) : list Z :=
  if Z.eq_dec actions 1 then
    if Z.eq_dec last_heater_state 0 then hist ++ [now] else hist
  else hist.

(** Every action of the sequence passes the assertion of [execute]. *)
Definition all_valid (acts : list Z) : Prop :=
  Forall (fun a => valid_action a = true) acts.

(** The terminal flag returned by call number [i] (from 0) of a run. *)
Definition terminal_at {Env O : Type}
           (execute : Env -> Z -> Env * outcome (O * bool * R))
           (self : Env) (acts : list Z) (i : nat) : option bool :=
  nth i (map terminal_of (run_trace execute self acts)) None.

(** Once a call of a run returned [terminal = True], every later call of
    the run returns [terminal = True]. *)
Definition terminal_absorbing {Env O : Type}
           (execute : Env -> Z -> Env * outcome (O * bool * R)) : Prop :=
  forall (self : Env) (acts : list Z) (i j : nat),
    all_valid acts -> (i <= j < length acts)%nat ->
    terminal_at execute self acts i = Some true ->
    terminal_at execute self acts j = Some true.

Definition in_unit_interval (T : R) : Prop := 0 <= T <= 1.

(** ** Scenarios exercised below *)

(** The toggling sequence of the notebooks' own test cell
    ([execute(1)], [execute(0)], ...), cut before the fourth start-up. *)
Definition toggling : list Z := [1; 0; 1; 0; 1; 0]%Z.

(** The max start-ups environment after a [reset] and the toggling
    sequence: start-ups at timesteps 1, 3 and 5. *)
Definition v2_three_startups (sample : R) : V2.Env :=
  run_state V2.execute (fst (V2.reset V2.init sample)) toggling.

Definition v3_three_startups (sample : R) : V3.Env :=
  run_state V3.execute (fst (V3.reset V3.init sample)) toggling.

(** Twenty-two calls on the max start-ups environment: the toggling
    sequence, the fourth start-up at timestep 7, then the heater kept on. *)
Definition v2_cutoff_then_hold : list Z := toggling ++ repeat 1%Z 16.

(** A hundred calls on the explicit-state environment: heater off for 94
    steps, then start-ups at timesteps 95, 97 and 99. *)
Definition v3_late_toggling : list Z := repeat 0%Z 94 ++ toggling.

(** ** Vocabulary of the start-up history *)

(** Start-ups listed oldest first and at least two timesteps apart. *)
Fixpoint spaced (hist : list Z) : Prop :=
  match hist with
  | [] => True
  | e :: hist' => Forall (fun e' => (e + 2 <= e')%Z) hist' /\ spaced hist'
  end.

(** The shape of the history at [timestep], the heater last set to
    [last_heater_state]: start-ups spaced, none before timestep 1 or after
    the current one, and none at the current one if the heater is off. *)
Definition history_ok (timestep last_heater_state : Z) (hist : list Z)
  : Prop :=
  (0 <= timestep)%Z /\ spaced hist /\
  Forall (fun e => (1 <= e <= timestep)%Z) hist /\
  (last_heater_state = 0%Z -> Forall (fun e => (e < timestep)%Z) hist).

(** The calls of a run that switch the heater on, by their number
    (from 1): the action is 1 and the action before it, if any, is 0. *)
Definition switch_on_calls (acts : list Z) : list Z :=
  map Z.of_nat
      (filter (fun i => (nth (i - 1) acts 0 =? 1)%Z
                        && ((i =? 1)%nat || (nth (i - 2) acts 1 =? 0)%Z))
              (seq 1 (length acts))).

(** Heater switched on and off in turns, [n] times. *)
Fixpoint alternating (n : nat) : list Z :=
  match n with
  | O => []
  | S n' => 1%Z :: 0%Z :: alternating n'
  end.

(** The fields no method assigns after [__init__]. *)
Definition v1_config (s : V1.Env) : R := V1.tau s.

Definition v2_config (s : V2.Env) : R * Z * R * Z * Z :=
  (V2.tau s, V2.max_timestep s, V2.exceed_toggle_on_reward s,
   V2.max_toggle_ons s, V2.window_toggle_ons s).

Definition v3_config (s : V3.Env) : R * Z * R * Z * Z :=
  (V3.tau s, V3.max_timestep s, V3.exceed_toggle_on_reward s,
   V3.max_toggle_ons s, V3.window_toggle_ons s).

(** The part of the object the start-up bookkeeping reads and writes:
    timestep, last heater state, history; and what a valid call does
    to it. *)
Definition v2_bookkeeping (s : V2.Env) : Z * Z * list Z :=
  (V2.timestep s, V2.last_heater_state s, V2.off_to_on s).

Definition v3_bookkeeping (s : V3.Env) : Z * Z * list Z :=
  (V3.timestep s, V3.last_heater_state s, V3.off_to_on s).

Definition bookkeeping_step (b : Z * Z * list Z) (a : Z) : Z * Z * list Z :=
  let '(t, last, hist) := b in
  ((t + 1)%Z, a, record_startup last a (t + 1) hist).

(** The state the alternating run is in after [k] on/off pairs. *)
Definition alternating_inv (cfg : V3.Env) (s : V3.Env) : Prop :=
  v3_config s = v3_config cfg /\
  V3.last_heater_state s = 0%Z /\
  exists k : Z, (0 <= k)%Z /\ V3.timestep s = (2 * k)%Z /\
    forall j : Z, (1 <= j <= k)%Z -> In (2 * j - 1)%Z (V3.off_to_on s).


(** * Properties *)

(** ** Stepping lemmas *)

Lemma valid_action_iff (a : Z) :
  valid_action a = true <-> a = 0%Z \/ a = 1%Z.
Proof. unfold valid_action. lia. Qed.

Lemma startups_in_window_filter (now w : Z) (hist : list Z) :
  Z.of_nat (length (filter (fun e => (now - e <=? w)%Z) hist))
  = startups_in_window now w hist.
Proof.
  induction hist as [|e hist IH]; [reflexivity|].
  cbn [filter startups_in_window].
  destruct (Z.leb_spec (now - e) w), (Z.leb_spec (now - w) e);
    try lia; cbn [length]; lia.
Qed.

Ltac case_action H :=
  apply valid_action_iff in H; destruct H as [-> | ->].

Ltac split_ifs :=
  repeat match goal with
         | |- context [if ?b then _ else _] => destruct b eqn:?
         end.

Section V2Step.
Import V2.
Variables (s : Env) (a : Z).
Hypothesis Ha : valid_action a = true.

Local Abbreviation s' := (fst (execute s a)).

(** The call as an update followed by the choice of what to return. *)
Lemma v2_execute_valid :
  execute s a =
  (s',
   if (Z.of_nat (length (window_events s')) >? max_toggle_ons s')%Z
   then Returned (current_temp s', true, exceed_toggle_on_reward s')
   else if (timestep s' >? max_timestep s')%Z
   then Returned (current_temp s', true, reward_compute s')
   else Returned (current_temp s', false, reward_compute s')).
Proof.
  unfold execute, max_episode_timesteps. rewrite Ha.
  cbn [negb]. cbv zeta.
  set (P := set_last_heater_state _ a).
  destruct (_ >? max_toggle_ons P)%Z eqn:E1; cbn [fst].
  - rewrite E1. reflexivity.
  - destruct (timestep P >? max_timestep P)%Z eqn:E2; cbn [fst];
      rewrite E1, E2; reflexivity.
Qed.

(** The object after a call with a valid action, field by field. *)
Lemma v2_step_state :
  s' = mkEnv (tau s) (respond a (current_temp s) (tau s))
             (timestep s + 1) (max_timestep s)
             (exceed_toggle_on_reward s) a (max_toggle_ons s)
             (window_toggle_ons s)
             (record_startup (last_heater_state s) a (timestep s + 1)
                             (off_to_on s)).
Proof.
  unfold execute, record_startup. rewrite Ha. cbn [negb].
  cbn [set_timestep set_current_temp last_heater_state timestep].
  destruct (Z.eqb_spec (last_heater_state s) 0) as [E|E];
    destruct (Z.eq_dec (last_heater_state s) 0); try contradiction;
    destruct (Z.eqb_spec a 1) as [E1|E1];
    destruct (Z.eq_dec a 1); try contradiction;
    cbn [andb]; split_ifs; reflexivity.
Qed.

Lemma v2_step_count :
  Z.of_nat (length (window_events s'))
  = startups_in_window (timestep s + 1) (window_toggle_ons s)
      (record_startup (last_heater_state s) a (timestep s + 1)
                      (off_to_on s)).
Proof.
  unfold window_events. rewrite startups_in_window_filter.
  rewrite v2_step_state. reflexivity.
Qed.

(** What the call returns, in terms of the object before it. *)
Lemma v2_step_result :
  snd (execute s a) =
  let T' := respond a (current_temp s) (tau s) in
  if (startups_in_window (timestep s + 1) (window_toggle_ons s)
        (record_startup (last_heater_state s) a (timestep s + 1)
                        (off_to_on s)) >? max_toggle_ons s)%Z
  then Returned (T', true, exceed_toggle_on_reward s)
  else if (timestep s + 1 >? max_timestep s)%Z
  then Returned (T', true, reward_compute s')
  else Returned (T', false, reward_compute s').
Proof.
  rewrite v2_execute_valid. cbn [snd]. rewrite v2_step_count.
  rewrite v2_step_state. reflexivity.
Qed.
End V2Step.

Section V3Step.
Import V3.
Variables (s : Env) (a : Z).
Hypothesis Ha : valid_action a = true.

Local Abbreviation s' := (fst (execute s a)).

(** The call as an update followed by the choice of what to return. *)
Lemma v3_execute_valid :
  execute s a =
  (s',
   if (toggle_ons_left s' <? 0)%Z
   then Returned (observation s', false, exceed_toggle_on_reward s')
   else if (timestep s' >? max_timestep s')%Z
   then Returned (observation s', true, reward_compute s')
   else Returned (observation s', false, reward_compute s')).
Proof.
  unfold execute, max_episode_timesteps. rewrite Ha.
  cbn [negb]. cbv zeta.
  set (P := set_toggle_ons_left _ _).
  destruct (toggle_ons_left P <? 0)%Z eqn:E1; cbn [fst].
  - rewrite E1. reflexivity.
  - destruct (timestep P >? max_timestep P)%Z eqn:E2; cbn [fst];
      rewrite E1, E2; reflexivity.
Qed.

(** The object after a call with a valid action, field by field. *)
Lemma v3_step_state :
  s' =
  let now := (timestep s + 1)%Z in
  let hist := record_startup (last_heater_state s) a now (off_to_on s) in
  mkEnv (tau s) (respond a (current_temp s) (tau s))
        now (max_timestep s)
        (exceed_toggle_on_reward s) a (max_toggle_ons s)
        (max_toggle_ons s
         - startups_in_window now (window_toggle_ons s) hist)
        (window_toggle_ons s) hist.
Proof.
  cbv zeta. rewrite <- startups_in_window_filter.
  unfold execute, record_startup. rewrite Ha. cbn [negb].
  cbn [set_timestep set_current_temp last_heater_state timestep].
  destruct (Z.eqb_spec (last_heater_state s) 0) as [E|E];
    destruct (Z.eq_dec (last_heater_state s) 0); try contradiction;
    destruct (Z.eqb_spec a 1) as [E1|E1];
    destruct (Z.eq_dec a 1); try contradiction;
    cbn [andb]; split_ifs; reflexivity.
Qed.

(** What the call returns, in terms of the object before it. *)
Lemma v3_step_result :
  snd (execute s a) =
  let T' := respond a (current_temp s) (tau s) in
  let remaining :=
    (max_toggle_ons s
     - startups_in_window (timestep s + 1) (window_toggle_ons s)
         (record_startup (last_heater_state s) a (timestep s + 1)
                         (off_to_on s)))%Z in
  if (remaining <? 0)%Z
  then Returned ((T', IZR remaining), false, exceed_toggle_on_reward s)
  else if (timestep s + 1 >? max_timestep s)%Z
  then Returned ((T', IZR remaining), true, reward_compute s')
  else Returned ((T', IZR remaining), false, reward_compute s').
Proof.
  rewrite v3_execute_valid. cbn [snd].
  rewrite v3_step_state. reflexivity.
Qed.
End V3Step.

Section V1Step.
Import V1.
Variables (s : Env) (a : Z).
Hypothesis Ha : valid_action a = true.

Lemma v1_execute_valid :
  execute s a =
  let T' := respond a (current_temp s) (tau s) in
  let s' := mkEnv (tau s) T' (timestep s + 1) in
  (s', Returned (T', (timestep s + 1 >? 5)%Z, reward_compute s')).
Proof.
  unfold execute, max_episode_timesteps. rewrite Ha. cbn [negb].
  cbv zeta. cbn [timestep tau current_temp].
  destruct (timestep s + 1 >? 5)%Z; reflexivity.
Qed.
End V1Step.

(** ** Invalid actions *)

(** C9. For every action outside {0,1}, [execute] raises the assertion
    error before any assignment: the object after the call is the object
    before it, in each of the three environments. *)
Theorem C9_invalid_action_rejected_before_mutation (a : Z) :
  a <> 0%Z -> a <> 1%Z ->
  (forall s, V1.execute s a = (s, Raised AssertionError)) /\
  (forall s, V2.execute s a = (s, Raised AssertionError)) /\
  (forall s, V3.execute s a = (s, Raised AssertionError)).
Proof.
  intros H0 H1.
  assert (Hv : valid_action a = false).
  { destruct (valid_action a) eqn:E; [|reflexivity].
    apply valid_action_iff in E. lia. }
  repeat split; intro s;
    [unfold V1.execute | unfold V2.execute | unfold V3.execute];
    rewrite Hv; reflexivity.
Qed.

Lemma C9_witness :
  (2 <> 0)%Z /\ (2 <> 1)%Z /\
  V2.execute V2.init 2 = (V2.init, Raised AssertionError).
Proof.
  assert (H0 : (2 <> 0)%Z) by lia.
  assert (H1 : (2 <> 1)%Z) by lia.
  split; [exact H0 | split; [exact H1 |]].
  apply (C9_invalid_action_rejected_before_mutation 2 H0 H1).
Defined.

(** ** The start-up budget *)

(** C4. In the max start-ups environment, whenever, after the updates of
    a call, the start-ups recorded inside the inclusive window outnumber
    [max_toggle_ons], the call returns [terminal = True] with the reward
    [exceed_toggle_on_reward], whatever the dead-band reward would be. *)
Theorem C4_v2_hard_cutoff (s : V2.Env) (a : Z) :
  valid_action a = true ->
  let s' := fst (V2.execute s a) in
  (startups_in_window (V2.timestep s') (V2.window_toggle_ons s')
                      (V2.off_to_on s') > V2.max_toggle_ons s')%Z ->
  snd (V2.execute s a)
  = Returned (V2.current_temp s', true, V2.exceed_toggle_on_reward s).
Proof.
  intros Ha s' Hcount.
  rewrite (v2_execute_valid s a Ha). cbn [snd]. fold s'.
  unfold V2.window_events. rewrite startups_in_window_filter.
  destruct (Z.gtb_spec
              (startups_in_window (V2.timestep s') (V2.window_toggle_ons s')
                                  (V2.off_to_on s'))
              (V2.max_toggle_ons s')) as [_|Hle]; [|lia].
  subst s'. rewrite (v2_step_state s a Ha). reflexivity.
Qed.

Lemma C4_witness :
  let s := v2_three_startups 0.5 in
  let s' := fst (V2.execute s 1) in
  valid_action 1 = true /\
  (startups_in_window (V2.timestep s') (V2.window_toggle_ons s')
                      (V2.off_to_on s') > V2.max_toggle_ons s')%Z /\
  snd (V2.execute s 1)
  = Returned (V2.current_temp s', true, - 50.0).
Proof.
  intros s s'.
  assert (Ha : valid_action 1 = true) by reflexivity.
  assert (Hc : (startups_in_window (V2.timestep s') (V2.window_toggle_ons s')
                  (V2.off_to_on s') > V2.max_toggle_ons s')%Z)
    by reflexivity.
  split; [exact Ha | split; [exact Hc |]].
  exact (C4_v2_hard_cutoff s 1 Ha Hc).
Defined.

(** C5. In the explicit-state environment, whenever, after the updates of
    a call, [remaining = max_toggle_ons - (start-ups inside the window)] is
    negative, the call returns [terminal = False], the reward
    [exceed_toggle_on_reward], and an observation whose second component
    is that negative [remaining]. *)
Theorem C5_v3_soft_penalty (s : V3.Env) (a : Z) :
  valid_action a = true ->
  let s' := fst (V3.execute s a) in
  let remaining :=
    (V3.max_toggle_ons s'
     - startups_in_window (V3.timestep s') (V3.window_toggle_ons s')
                          (V3.off_to_on s'))%Z in
  (remaining < 0)%Z ->
  snd (V3.execute s a)
  = Returned ((V3.current_temp s', IZR remaining), false,
              V3.exceed_toggle_on_reward s)
  /\ V3.toggle_ons_left s' = remaining
  /\ IZR remaining < 0.
Proof.
  intros Ha s' remaining Hneg.
  assert (Hleft : V3.toggle_ons_left s' = remaining).
  { subst remaining s'. rewrite (v3_step_state s a Ha). reflexivity. }
  split; [|split; [exact Hleft | apply IZR_lt in Hneg; exact Hneg]].
  rewrite (v3_execute_valid s a Ha). cbn [snd]. fold s'.
  unfold V3.observation. rewrite Hleft.
  destruct (Z.ltb_spec remaining 0) as [_|Hge]; [|lia].
  subst s'. rewrite (v3_step_state s a Ha). reflexivity.
Qed.

Lemma C5_witness :
  let s := v3_three_startups 0.5 in
  let s' := fst (V3.execute s 1) in
  valid_action 1 = true /\
  (V3.max_toggle_ons s'
   - startups_in_window (V3.timestep s') (V3.window_toggle_ons s')
                        (V3.off_to_on s') < 0)%Z /\
  snd (V3.execute s 1)
  = Returned ((V3.current_temp s', IZR (-1)), false, - 10.0).
Proof.
  intros s s'.
  assert (Ha : valid_action 1 = true) by reflexivity.
  assert (Hc : (V3.max_toggle_ons s'
                - startups_in_window (V3.timestep s')
                    (V3.window_toggle_ons s') (V3.off_to_on s') < 0)%Z)
    by reflexivity.
  split; [exact Ha | split; [exact Hc |]].
  exact (proj1 (C5_v3_soft_penalty s 1 Ha Hc)).
Defined.

(** ** The dead-band reward *)

Lemma v1_reward_cases (s : V1.Env) :
  let delta := Rabs (V1.current_temp s - 0.5) in
  (delta < 0.1 -> V1.reward_compute s = 0) /\
  (~ delta < 0.1 -> V1.reward_compute s = 0.1 - delta).
Proof.
  unfold V1.reward_compute. cbv zeta.
  destruct (Rlt_dec (Rabs (V1.current_temp s - 0.5)) 0.1) as [Hlt|Hge];
    split; intro H; try contradiction; try reflexivity; lra.
Qed.


Lemma v3_reward_cases (s : V3.Env) :
  let delta := Rabs (V3.current_temp s - 0.5) in
  (delta < 0.1 -> V3.reward_compute s = 1.0) /\
  (~ delta < 0.1 -> V3.reward_compute s = 0.1 - delta).
Proof.
  unfold V3.reward_compute. cbv zeta.
  destruct (Rlt_dec (Rabs (V3.current_temp s - 0.5)) 0.1) as [Hlt|Hge];
    split; intro H; try contradiction; try reflexivity; lra.
Qed.



(** In the explicit-state environment the value [1.0] identifies the band. *)
Remark v3_reward_one_iff (s : V3.Env) :
  V3.reward_compute s = 1.0 <-> Rabs (V3.current_temp s - 0.5) < 0.1.
Proof.
  destruct (v3_reward_cases s) as [Hin Hout]. split.
  - intro H1. destruct (Rlt_dec (Rabs (V3.current_temp s - 0.5)) 0.1)
      as [Hlt|Hge]; [exact Hlt|].
    rewrite (Hout Hge) in H1.
    pose proof (Rabs_pos (V3.current_temp s - 0.5)). lra.
  - exact Hin.
Qed.

(** In the base environments the out-of-band formula meets the in-band
    value [0] at the edge of the band. *)
Remark v1_reward_zero_iff (s : V1.Env) :
  V1.reward_compute s = 0 <-> Rabs (V1.current_temp s - 0.5) <= 0.1.
Proof.
  destruct (v1_reward_cases s) as [Hin Hout]. split.
  - intro H0. destruct (Rlt_dec (Rabs (V1.current_temp s - 0.5)) 0.1)
      as [Hlt|Hge]; [lra|].
    rewrite (Hout Hge) in H0. lra.
  - intro Hle. destruct (Rlt_dec (Rabs (V1.current_temp s - 0.5)) 0.1)
      as [Hlt|Hge]; [exact (Hin Hlt)|].
    rewrite (Hout Hge). lra.
Qed.

(** ** The thermal response *)

Lemma v1_response_respond (s : V1.Env) (a : Z) :
  V1.response s a = respond a (V1.current_temp s) (V1.tau s).
Proof. reflexivity. Qed.

Lemma v2_response_respond (s : V2.Env) (a : Z) :
  V2.response s a = respond a (V2.current_temp s) (V2.tau s).
Proof. reflexivity. Qed.

Lemma v3_response_respond (s : V3.Env) (a : Z) :
  V3.response s a = respond a (V3.current_temp s) (V3.tau s).
Proof. reflexivity. Qed.

Lemma decay_factor_bounds (tau : R) :
  0 < tau -> 0 < exp (- 1.0 / tau) < 1.
Proof.
  intro Htau. split; [apply exp_pos|].
  assert (Hneg : - 1.0 / tau < 0).
  { assert (0 < / tau) by (apply Rinv_0_lt_compat; exact Htau).
    unfold Rdiv. nra. }
  apply exp_increasing in Hneg. rewrite exp_0 in Hneg. exact Hneg.
Qed.









Lemma respond_unit_interval (a : Z) (T tau : R) :
  0 < tau -> valid_action a = true ->
  in_unit_interval T -> in_unit_interval (respond a T tau).
Proof.
  unfold in_unit_interval, respond. intros Htau Ha [H0 H1].
  pose proof (decay_factor_bounds tau Htau) as [Hq0 Hq1].
  set (q := exp (- 1.0 / tau)) in *.
  case_action Ha; split; nra.
Qed.

Lemma v1_step_unit_interval (s : V1.Env) (a : Z) :
  0 < V1.tau s -> in_unit_interval (V1.current_temp s) ->
  0 < V1.tau (fst (V1.execute s a)) /\
  in_unit_interval (V1.current_temp (fst (V1.execute s a))).
Proof.
  intros Htau HT. destruct (valid_action a) eqn:Ha.
  - rewrite (v1_execute_valid s a Ha). cbn [fst V1.tau V1.current_temp].
    split; [exact Htau | now apply respond_unit_interval].
  - unfold V1.execute. rewrite Ha. split; assumption.
Qed.

Lemma v2_step_unit_interval (s : V2.Env) (a : Z) :
  0 < V2.tau s -> in_unit_interval (V2.current_temp s) ->
  0 < V2.tau (fst (V2.execute s a)) /\
  in_unit_interval (V2.current_temp (fst (V2.execute s a))).
Proof.
  intros Htau HT. destruct (valid_action a) eqn:Ha.
  - rewrite (v2_step_state s a Ha). cbn [V2.tau V2.current_temp].
    split; [exact Htau | now apply respond_unit_interval].
  - unfold V2.execute. rewrite Ha. split; assumption.
Qed.

Lemma v3_step_unit_interval (s : V3.Env) (a : Z) :
  0 < V3.tau s -> in_unit_interval (V3.current_temp s) ->
  0 < V3.tau (fst (V3.execute s a)) /\
  in_unit_interval (V3.current_temp (fst (V3.execute s a))).
Proof.
  intros Htau HT. destruct (valid_action a) eqn:Ha.
  - rewrite (v3_step_state s a Ha). cbn [V3.tau V3.current_temp].
    split; [exact Htau | now apply respond_unit_interval].
  - unfold V3.execute. rewrite Ha. split; assumption.
Qed.

(** C10. For [tau > 0], a temperature of [[0,1]] and an action of {0,1},
    [respond] stays in [[0,1]]; so [current_temp] stays in [[0,1]] over
    any sequence of [execute] calls of an episode that starts there, and
    every [reset] starts the episode there. *)
Theorem C10_unit_interval_invariant (tau : R) :
  0 < tau ->
  (forall a T, valid_action a = true -> in_unit_interval T ->
               in_unit_interval (respond a T tau)) /\
  (forall s acts, V1.tau s = tau -> in_unit_interval (V1.current_temp s) ->
     in_unit_interval (V1.current_temp (run_state V1.execute s acts))) /\
  (forall s acts, V2.tau s = tau -> in_unit_interval (V2.current_temp s) ->
     in_unit_interval (V2.current_temp (run_state V2.execute s acts))) /\
  (forall s acts, V3.tau s = tau -> in_unit_interval (V3.current_temp s) ->
     in_unit_interval (V3.current_temp (run_state V3.execute s acts))) /\
  (forall sample, 0 <= sample < 1 ->
     (forall s, in_unit_interval (V1.current_temp (fst (V1.reset s sample)))) /\
     (forall s, in_unit_interval (V2.current_temp (fst (V2.reset s sample)))) /\
     (forall s, in_unit_interval (V3.current_temp (fst (V3.reset s sample))))).
Proof.
  intro Htau. split; [|split; [|split; [|split]]].
  - intros a T Ha HT. now apply respond_unit_interval.
  - intros s acts <-. revert s Htau.
    induction acts as [|a acts IH]; intros s Htau HT; [exact HT|].
    cbn [run_state fold_left].
    destruct (v1_step_unit_interval s a Htau HT) as [Htau' HT'].
    exact (IH _ Htau' HT').
  - intros s acts <-. revert s Htau.
    induction acts as [|a acts IH]; intros s Htau HT; [exact HT|].
    cbn [run_state fold_left].
    destruct (v2_step_unit_interval s a Htau HT) as [Htau' HT'].
    exact (IH _ Htau' HT').
  - intros s acts <-. revert s Htau.
    induction acts as [|a acts IH]; intros s Htau HT; [exact HT|].
    cbn [run_state fold_left].
    destruct (v3_step_unit_interval s a Htau HT) as [Htau' HT'].
    exact (IH _ Htau' HT').
  - intros sample Hs. unfold in_unit_interval.
    repeat split; cbn; lra.
Qed.

Lemma C10_witness :
  0 < 3.0 /\
  in_unit_interval
    (V2.current_temp
       (run_state V2.execute (fst (V2.reset V2.init 0.25)) [1; 1; 0]%Z)).
Proof.
  assert (Htau : 0 < 3.0) by lra.
  split; [exact Htau|].
  destruct (C10_unit_interval_invariant 3.0 Htau) as (_ & _ & H2 & _).
  apply H2; [reflexivity|].
  unfold in_unit_interval. cbn. lra.
Defined.

(** ** The sliding window *)








(** ** Termination *)

(** When the explicit-state environment ends an episode. *)
Lemma v3_terminal_iff (s : V3.Env) (a : Z) :
  valid_action a = true ->
  let s' := fst (V3.execute s a) in
  terminal_of (snd (V3.execute s a)) = Some true
  <-> (0 <= V3.toggle_ons_left s')%Z
      /\ (V3.timestep s + 1 > V3.max_timestep s)%Z.
Proof.
  intros Ha s'. rewrite (v3_execute_valid s a Ha). cbn [snd]. fold s'.
  assert (Ht : V3.timestep s' = (V3.timestep s + 1)%Z /\
               V3.max_timestep s' = V3.max_timestep s)
    by (subst s'; rewrite (v3_step_state s a Ha); split; reflexivity).
  destruct Ht as [-> ->].
  destruct (Z.ltb_spec (V3.toggle_ons_left s') 0);
    [|destruct (Z.gtb_spec (V3.timestep s + 1) (V3.max_timestep s))];
    cbn [terminal_of]; split; intro H1;
    try discriminate; try reflexivity; lia.
Qed.

(** C1. The explicit-state environment, one call past its limit of 100
    timesteps, with the fourth start-up of the window made by that very
    call: the call answers [terminal = False] (and the penalty [-10.0],
    with the budget at [-1]), because the test of the budget returns
    before the test of the time limit is reached. *)
Theorem C1_v3_time_limit_masked_by_penalty (sample : R) :
  let s := run_state V3.execute (fst (V3.reset V3.init sample))
                     v3_late_toggling in
  let r := V3.execute s 1 in
  V3.timestep s = 100%Z /\ V3.max_timestep s = 100%Z /\
  V3.timestep (fst r) = 101%Z /\
  V3.off_to_on (fst r) = [95; 97; 99; 101]%Z /\
  V3.toggle_ons_left (fst r) = (-1)%Z /\
  terminal_of (snd r) = Some false /\
  reward_of (snd r) = Some (- 10.0).
Proof.
  intros s r. repeat split; lazy; reflexivity.
Qed.

(** ** Reset *)

Lemma v1_reset_spec (s : V1.Env) (sample : R) :
  let r := V1.reset s sample in
  snd r = sample /\ V1.current_temp (fst r) = 0.0 /\
  V1.timestep (fst r) = 0%Z /\ V1.tau (fst r) = V1.tau s.
Proof. repeat split; reflexivity. Qed.

Lemma v2_reset_spec (s : V2.Env) (sample : R) :
  let r := V2.reset s sample in
  V2.timestep (fst r) = 0%Z /\ V2.last_heater_state (fst r) = 0%Z /\
  V2.off_to_on (fst r) = [] /\ V2.current_temp (fst r) = sample /\
  snd r = V2.current_temp (fst r).
Proof. repeat split; reflexivity. Qed.

Lemma v3_reset_spec (s : V3.Env) (sample : R) :
  let r := V3.reset s sample in
  V3.timestep (fst r) = 0%Z /\ V3.last_heater_state (fst r) = 0%Z /\
  V3.off_to_on (fst r) = [] /\ V3.current_temp (fst r) = sample /\
  V3.toggle_ons_left (fst r) = V3.max_toggle_ons s /\
  snd r = (V3.current_temp (fst r), IZR (V3.max_toggle_ons s)).
Proof. repeat split; reflexivity. Qed.

(** C2. [reset] of the bang-bang environment with the generator handing
    out [0.5]: the call returns [0.5] and leaves [current_temp] at [0.0],
    so the observation returned is not the temperature of the object. *)
Theorem C2_v1_reset_returns_sample_keeps_zero :
  let r := V1.reset V1.init 0.5 in
  0 <= 0.5 < 1 /\
  snd r = 0.5 /\ V1.current_temp (fst r) = 0.0 /\
  snd r <> V1.current_temp (fst r).
Proof.
  cbv zeta. destruct (v1_reset_spec V1.init 0.5) as (-> & -> & _).
  repeat split; lra.
Qed.

(** ** Termination along a run *)

Lemma terminal_at_head {Env O : Type}
      (execute : Env -> Z -> Env * outcome (O * bool * R))
      (s : Env) (a : Z) (acts : list Z) :
  terminal_at execute s (a :: acts) 0 = terminal_of (snd (execute s a)).
Proof. reflexivity. Qed.

Lemma terminal_at_tail {Env O : Type}
      (execute : Env -> Z -> Env * outcome (O * bool * R))
      (s : Env) (a : Z) (acts : list Z) (i : nat) :
  terminal_at execute s (a :: acts) (S i)
  = terminal_at execute (fst (execute s a)) acts i.
Proof. reflexivity. Qed.

(** The bang-bang environment: the flag of a call is the test of the
    timestep it reaches, nothing else. *)
Lemma v1_terminal_at (acts : list Z) :
  all_valid acts ->
  forall s i, (i < length acts)%nat ->
    terminal_at V1.execute s acts i
    = Some (V1.timestep s + Z.of_nat i + 1 >? 5)%Z.
Proof.
  induction 1 as [|a acts Ha _ IH]; intros s i Hi; [cbn in Hi; lia|].
  destruct i as [|i].
  - rewrite terminal_at_head, (v1_execute_valid s a Ha). cbn.
    rewrite Z.add_0_r. reflexivity.
  - rewrite terminal_at_tail, IH by (cbn in Hi; lia).
    rewrite (v1_execute_valid s a Ha). cbn [fst V1.timestep].
    do 2 f_equal. lia.
Qed.

(** The max start-ups environment: past the time limit both remaining
    returns of [execute] carry [True]. *)
Lemma v2_terminal_past_limit (acts : list Z) :
  all_valid acts ->
  forall s j, (j < length acts)%nat ->
    (V2.timestep s + Z.of_nat j + 1 > V2.max_timestep s)%Z ->
    terminal_at V2.execute s acts j = Some true.
Proof.
  induction 1 as [|a acts Ha _ IH]; intros s j Hj Hlim; [cbn in Hj; lia|].
  pose proof (v2_step_state s a Ha) as Hs1.
  destruct j as [|j].
  - rewrite terminal_at_head, (v2_step_result s a Ha). cbv zeta.
    destruct (_ >? V2.max_toggle_ons s)%Z; [reflexivity|].
    destruct (Z.gtb_spec (V2.timestep s + 1) (V2.max_timestep s));
      [reflexivity | lia].
  - rewrite terminal_at_tail. apply IH; [cbn in Hj; lia|].
    rewrite Hs1. cbn [V2.timestep V2.max_timestep]. lia.
Qed.

(** A termination by the hard cutoff does not last: the fourth start-up
    at timestep 7 ends the episode, and with the heater kept on the call
    at timestep 22 finds only three start-ups in its window. *)
Lemma C3_counterexample : ~ terminal_absorbing V2.execute.
Proof.
  intro Habs.
  specialize (Habs (fst (V2.reset V2.init 0.5)) v2_cutoff_then_hold
                   6%nat 21%nat).
  assert (Hacts : all_valid v2_cutoff_then_hold) by (repeat constructor).
  assert (Hij : (6 <= 21 < length v2_cutoff_then_hold)%nat)
    by (cbn; lia).
  assert (H6 : terminal_at V2.execute (fst (V2.reset V2.init 0.5))
                           v2_cutoff_then_hold 6 = Some true)
    by (lazy; reflexivity).
  specialize (Habs Hacts Hij H6).
  assert (H21 : terminal_at V2.execute (fst (V2.reset V2.init 0.5))
                            v2_cutoff_then_hold 21 = Some false)
    by (lazy; reflexivity).
  rewrite H21 in Habs. discriminate Habs.
Qed.

(** C3 (amended). In the bang-bang environment, once a call returned
    [terminal = True] every later call of the run does. In the max
    start-ups environment the same holds of a call that returned
    [terminal = True] with the timestep past [max_timestep]. After a
    [reset] the first call of the bang-bang environment returns
    [terminal = False]. *)
Theorem C3_time_limit_termination_absorbing :
  terminal_absorbing V1.execute /\
  (forall (s : V2.Env) (acts : list Z) (i j : nat),
     all_valid acts -> (i <= j < length acts)%nat ->
     terminal_at V2.execute s acts i = Some true ->
     (V2.timestep s + Z.of_nat i + 1 > V2.max_timestep s)%Z ->
     terminal_at V2.execute s acts j = Some true) /\
  (forall (s : V1.Env) (sample : R) (a : Z),
     valid_action a = true ->
     terminal_of (snd (V1.execute (fst (V1.reset s sample)) a))
     = Some false).
Proof.
  split; [|split].
  - intros s acts i j Hacts Hij Hi.
    rewrite (v1_terminal_at acts Hacts) in Hi by lia.
    rewrite (v1_terminal_at acts Hacts) by lia.
    injection Hi as Hi. f_equal. lia.
  - intros s acts i j Hacts Hij _ Hlim.
    apply (v2_terminal_past_limit acts Hacts); lia.
  - intros s sample a Ha. rewrite (v1_execute_valid _ a Ha). reflexivity.
Qed.

Lemma C3_witness :
  let s := V2.set_timestep V2.init 199 in
  let acts := [1; 0; 1]%Z in
  all_valid acts /\ (1 <= 2 < length acts)%nat /\
  terminal_at V2.execute s acts 1 = Some true /\
  (V2.timestep s + Z.of_nat 1 + 1 > V2.max_timestep s)%Z /\
  terminal_at V2.execute s acts 2 = Some true.
Proof.
  intros s acts.
  assert (Hacts : all_valid acts) by (repeat constructor).
  assert (Hij : (1 <= 2 < length acts)%nat) by (cbn; lia).
  assert (H1 : terminal_at V2.execute s acts 1 = Some true)
    by (lazy; reflexivity).
  assert (Hlim : (V2.timestep s + Z.of_nat 1 + 1 > V2.max_timestep s)%Z)
    by reflexivity.
  exact (conj Hacts (conj Hij (conj H1 (conj Hlim
    (proj1 (proj2 C3_time_limit_termination_absorbing)
           s acts 1%nat 2%nat Hacts Hij H1 Hlim))))).
Defined.

(** The explicit-state environment past its time limit: the call at
    timestep 101 returns [True], the call at timestep 102 makes the fourth
    start-up of its window and returns [False]. *)
Remark v3_not_terminal_absorbing : ~ terminal_absorbing V3.execute.
Proof.
  intro Habs.
  specialize (Habs (fst (V3.reset V3.init 0.5))
                   (v3_late_toggling ++ [0; 1]%Z) 100%nat 101%nat).
  assert (Hacts : all_valid (v3_late_toggling ++ [0; 1]%Z))
    by (repeat constructor).
  assert (Hij : (100 <= 101 < length (v3_late_toggling ++ [0; 1]%Z))%nat)
    by (cbn; lia).
  assert (H100 : terminal_at V3.execute (fst (V3.reset V3.init 0.5))
                   (v3_late_toggling ++ [0; 1]%Z) 100 = Some true)
    by (lazy; reflexivity).
  specialize (Habs Hacts Hij H100).
  assert (H101 : terminal_at V3.execute (fst (V3.reset V3.init 0.5))
                   (v3_late_toggling ++ [0; 1]%Z) 101 = Some false)
    by (lazy; reflexivity).
  rewrite H101 in Habs. discriminate Habs.
Qed.

(** ** The notebooks' own test cells *)

(** thermostat-environment.ipynb, seven [execute(1)]: the printed flags. *)
Example v1_notebook_flags :
  map terminal_of (run_trace V1.execute V1.init [1; 1; 1; 1; 1; 1; 1]%Z)
  = map Some [false; false; false; false; false; true; true].
Proof. lazy. reflexivity. Qed.

(** thermostatic-control-03, the cell after the class: the flags, the
    budget left after each call, the last three rewards, and the two
    values printed at the end. *)
Example v3_notebook_trace (sample : R) :
  let s0 := fst (V3.reset V3.init sample) in
  let acts := [1; 0; 1; 0; 1; 0; 1; 1; 1]%Z in
  map terminal_of (run_trace V3.execute s0 acts)
  = map Some [false; false; false; false; false; false; false; false; false]
  /\ map (fun k => V3.toggle_ons_left
                     (run_state V3.execute s0 (firstn k acts)))
         (seq 1 9)
     = [2; 2; 1; 1; 0; 0; -1; -1; -1]%Z
  /\ map reward_of (skipn 6 (run_trace V3.execute s0 acts))
     = map Some [- 10.0; - 10.0; - 10.0]
  /\ V3.off_to_on (run_state V3.execute s0 acts) = [1; 3; 5; 7]%Z
  /\ V3.timestep (run_state V3.execute s0 acts) = 9%Z.
Proof. repeat split; lazy; reflexivity. Qed.

(** * Further properties *)

(** ** The simulation cell of thermostatic-response-function.ipynb *)

Lemma set_item_middle (l1 l2 : list R) (x v : R) :
  set_item (l1 ++ x :: l2) (length l1) v = l1 ++ v :: l2.
Proof.
  induction l1 as [|y l1 IH]; cbn; [reflexivity|]. now rewrite IH.
Qed.

Lemma respond_scan_length (last tau : R) (acts : list Z) :
  length (respond_scan last tau acts) = length acts.
Proof.
  revert last. induction acts as [|a acts IH]; intro last; cbn; auto.
Qed.

(** Entry [k] of the recursion is one [respond] away from entry [k - 1]. *)
Lemma respond_scan_nth (tau : R) (acts : list Z) :
  forall (last : R) (k : nat), (k < length acts)%nat ->
    nth k (respond_scan last tau acts) 0
    = respond (nth k acts 0%Z)
              (match k with
               | O => last
               | S k' => nth k' (respond_scan last tau acts) 0
               end) tau.
Proof.
  induction acts as [|a acts IH]; intros last k Hk; [cbn in Hk; lia|].
  destruct k as [|k]; [reflexivity|].
  cbn [respond_scan nth]. rewrite IH by (cbn in Hk; lia).
  destruct k; reflexivity.
Qed.

Lemma firstn_snoc_nth (l : list R) (k : nat) :
  (k < length l)%nat -> firstn (S k) l = firstn k l ++ [nth k l 0].
Proof.
  revert k. induction l as [|x l IH]; intros k Hk; [cbn in Hk; lia|].
  destruct k as [|k]; [reflexivity|].
  cbn [firstn nth app]. f_equal. apply IH. cbn in Hk. lia.
Qed.

(** The loop invariant: after the turns [0 .. k-1] the array holds the
    first [k] temperatures and zeros behind them. *)
Lemma response_loop_invariant (sAction : list Z) (k : nat) :
  (k <= length sAction)%nat ->
  fold_left (response_loop_body sAction) (seq 0 k)
            (repeat 0 (length sAction))
  = firstn k (respond_scan 0 3.0 sAction)
    ++ repeat 0 (length sAction - k).
Proof.
  induction k as [|k IH]; intro Hk.
  - cbn [seq fold_left firstn app]. rewrite Nat.sub_0_r. reflexivity.
  - rewrite seq_S, fold_left_app, IH by lia. cbn [fold_left Nat.add].
    set (scan := respond_scan 0 3.0 sAction).
    assert (Hlen : length scan = length sAction)
      by apply respond_scan_length.
    assert (Hfl : length (firstn k scan) = k)
      by (rewrite length_firstn; lia).
    replace (length sAction - k)%nat with (S (length sAction - S k))
      by lia.
    cbn [repeat]. unfold response_loop_body.
    assert (Hlast : (if (k =? 0)%nat then 0
                     else nth (k - 1)
                              (firstn k scan
                               ++ 0 :: repeat 0 (length sAction - S k)) 0)
                    = match k with
                      | O => 0
                      | S k' => nth k' scan 0
                      end).
    { destruct k as [|k']; [reflexivity|].
      cbn [Nat.eqb]. replace (S k' - 1)%nat with k' by lia.
      rewrite app_nth1 by lia.
      rewrite nth_firstn.
      destruct (Nat.ltb_spec k' (S k')); [reflexivity | lia]. }
    rewrite Hlast.
    rewrite <- Hfl at 3. rewrite set_item_middle.
    rewrite (firstn_snoc_nth scan k) by lia.
    rewrite <- app_assoc. cbn [app].
    f_equal. f_equal. unfold scan.
    rewrite (respond_scan_nth 3.0 sAction 0 k) by lia. reflexivity.
Qed.

Lemma response_series_scan (sAction : list Z) :
  response_series sAction = respond_scan 0 3.0 sAction.
Proof.
  unfold response_series.
  rewrite response_loop_invariant by lia.
  rewrite Nat.sub_diag, app_nil_r.
  apply firstn_all2. rewrite respond_scan_length. lia.
Qed.

(** X1. The array the cell leaves: as long as the actions, and every entry is
    [respond] of its action and of the entry before it ([0] for the
    first), never of a zero the loop had not overwritten yet. *)
Theorem response_series_recurrence (sAction : list Z) :
  length (response_series sAction) = length sAction /\
  forall i, (i < length sAction)%nat ->
    nth i (response_series sAction) 0
    = respond (nth i sAction 0%Z)
              (match i with
               | O => 0
               | S k => nth k (response_series sAction) 0
               end) 3.0.
Proof.
  rewrite response_series_scan. split.
  - apply respond_scan_length.
  - intros i Hi. apply respond_scan_nth, Hi.
Qed.







Lemma respond_half_open (a : Z) (T tau : R) :
  0 < tau -> valid_action a = true ->
  0 <= T < 1 -> 0 <= respond a T tau < 1.
Proof.
  unfold respond. intros Htau Ha [H0 H1].
  pose proof (decay_factor_bounds tau Htau) as [Hq0 Hq1].
  set (q := exp (- 1.0 / tau)) in *.
  case_action Ha; split; nra.
Qed.

Lemma respond_scan_half_open (tau : R) (acts : list Z) :
  0 < tau -> all_valid acts ->
  forall T0, 0 <= T0 < 1 ->
    Forall (fun T => 0 <= T < 1) (respond_scan T0 tau acts).
Proof.
  intros Htau. induction 1 as [|a acts Ha _ IH]; intros T0 HT0.
  - constructor.
  - cbn [respond_scan]. pose proof (respond_half_open a T0 tau Htau Ha HT0).
    constructor; [assumption | apply IH; assumption].
Qed.

(** X3. Whatever the schedule of on/off actions, every temperature of the
    simulated series lies in [[0,1)]: the room never reaches the heater's
    temperature. *)
Theorem response_series_half_open (sAction : list Z) :
  all_valid sAction ->
  Forall (fun T => 0 <= T < 1) (response_series sAction).
Proof.
  intro Hv. rewrite response_series_scan.
  apply respond_scan_half_open; [lra | exact Hv | lra].
Qed.

Lemma response_series_half_open_witness :
  all_valid [1; 1; 0]%Z /\
  Forall (fun T => 0 <= T < 1) (response_series [1; 1; 0]%Z).
Proof.
  assert (Hv : all_valid [1; 1; 0]%Z) by (repeat constructor).
  exact (conj Hv (response_series_half_open _ Hv)).
Defined.
(** ** The shape of the start-up history *)

Lemma startups_in_window_app (now w : Z) (l1 l2 : list Z) :
  startups_in_window now w (l1 ++ l2)
  = (startups_in_window now w l1 + startups_in_window now w l2)%Z.
Proof.
  induction l1 as [|e l1 IH]; cbn [app startups_in_window]; lia.
Qed.

Lemma spaced_snoc (hist : list Z) (e : Z) :
  spaced hist -> Forall (fun x => (x + 2 <= e)%Z) hist ->
  spaced (hist ++ [e]).
Proof.
  induction hist as [|x hist IH]; intros Hs Hf.
  - cbn. split; [constructor | exact I].
  - cbn [app spaced] in *. destruct Hs as [Hx Hs].
    inversion Hf as [|? ? Hxe Hf']; subst. split.
    + apply Forall_app. split; [exact Hx|]. constructor; [exact Hxe|constructor].
    + apply IH; assumption.
Qed.

(** One call keeps the shape of the history. *)
Lemma history_ok_step (t last a : Z) (hist : list Z) :
  valid_action a = true ->
  history_ok t last hist ->
  history_ok (t + 1) a (record_startup last a (t + 1) hist).
Proof.
  intros Ha (Ht & Hsp & Hin & Hoff). unfold record_startup.
  destruct (Z.eq_dec a 1) as [->|Hn];
    [destruct (Z.eq_dec last 0) as [Hl|Hl]|].
  - specialize (Hoff Hl). repeat split.
    + lia.
    + apply spaced_snoc; [exact Hsp|].
      eapply Forall_impl; [|exact Hoff]. cbn. intros; lia.
    + apply Forall_app. split.
      * eapply Forall_impl; [|exact Hin]. cbn. intros; lia.
      * constructor; [lia | constructor].
    + intro H. discriminate H.
  - repeat split; [lia | exact Hsp | | intro H; discriminate H].
    eapply Forall_impl; [|exact Hin]. cbn. intros; lia.
  - repeat split; [lia | exact Hsp | |].
    + eapply Forall_impl; [|exact Hin]. cbn. intros; lia.
    + intros _. eapply Forall_impl; [|exact Hin]. cbn. intros; lia.
Qed.

Lemma v2_history_ok_run (acts : list Z) :
  all_valid acts ->
  forall s,
    history_ok (V2.timestep s) (V2.last_heater_state s) (V2.off_to_on s) ->
    let s' := run_state V2.execute s acts in
    history_ok (V2.timestep s') (V2.last_heater_state s') (V2.off_to_on s').
Proof.
  induction 1 as [|a acts Ha _ IH]; intros s Hok; [exact Hok|].
  cbn [run_state fold_left]. apply IH.
  rewrite (v2_step_state s a Ha).
  cbn [V2.timestep V2.last_heater_state V2.off_to_on].
  apply history_ok_step; assumption.
Qed.

Lemma v3_history_ok_run (acts : list Z) :
  all_valid acts ->
  forall s,
    history_ok (V3.timestep s) (V3.last_heater_state s) (V3.off_to_on s) ->
    let s' := run_state V3.execute s acts in
    history_ok (V3.timestep s') (V3.last_heater_state s') (V3.off_to_on s').
Proof.
  induction 1 as [|a acts Ha _ IH]; intros s Hok; [exact Hok|].
  cbn [run_state fold_left]. apply IH.
  rewrite (v3_step_state s a Ha).
  cbn [V3.timestep V3.last_heater_state V3.off_to_on].
  apply history_ok_step; assumption.
Qed.

Lemma history_ok_reset (last : Z) : history_ok 0 last [].
Proof. repeat split; try constructor; lia. Qed.

(** X4. Along an episode ([reset], then valid calls) the recorded start-ups
    are in increasing order and at least two timesteps apart, all lie
    between 1 and the current timestep, and the current timestep is among
    them only if the heater is on. In the max start-ups environment and in
    the explicit-state one. *)
Theorem episode_history_spaced (sample : R) (acts : list Z) :
  all_valid acts ->
  (forall s : V2.Env,
     let s' := run_state V2.execute (fst (V2.reset s sample)) acts in
     history_ok (V2.timestep s') (V2.last_heater_state s')
                (V2.off_to_on s')) /\
  (forall s : V3.Env,
     let s' := run_state V3.execute (fst (V3.reset s sample)) acts in
     history_ok (V3.timestep s') (V3.last_heater_state s')
                (V3.off_to_on s')).
Proof.
  intro Hv. split; intro s.
  - apply (v2_history_ok_run acts Hv). apply history_ok_reset.
  - apply (v3_history_ok_run acts Hv). apply history_ok_reset.
Qed.

Lemma episode_history_spaced_witness :
  all_valid [1; 0; 1; 1; 0; 1]%Z /\
  let s' := run_state V2.execute (fst (V2.reset V2.init 0.5))
                      [1; 0; 1; 1; 0; 1]%Z in
  history_ok (V2.timestep s') (V2.last_heater_state s') (V2.off_to_on s').
Proof.
  assert (Hv : all_valid [1; 0; 1; 1; 0; 1]%Z) by (repeat constructor).
  exact (conj Hv (proj1 (episode_history_spaced 0.5 _ Hv) V2.init)).
Defined.

(** ** How many start-ups a window can hold *)

Lemma spaced_span (e hi : Z) (hist : list Z) :
  spaced (e :: hist) -> Forall (fun x => (x <= hi)%Z) (e :: hist) ->
  (e + 2 * Z.of_nat (length hist) <= hi)%Z.
Proof.
  revert e. induction hist as [|x hist IH]; intros e Hs Hf.
  - inversion Hf; subst. cbn. lia.
  - destruct Hs as [Hgap Hs]. inversion Hf as [|? ? _ Hf']; subst.
    inversion Hgap as [|? ? Hex _]; subst.
    specialize (IH x Hs Hf'). cbn [length]. lia.
Qed.

Lemma startups_in_window_le_length (now w : Z) (hist : list Z) :
  (0 <= startups_in_window now w hist <= Z.of_nat (length hist))%Z.
Proof.
  induction hist as [|e hist IH]; cbn [startups_in_window length];
    [lia|]. destruct (now - w <=? e)%Z; lia.
Qed.

(** In a spaced history that ends by [now], the start-ups of a window of
    width [w] fit in [w / 2 + 1]. *)
Lemma spaced_window_count (now w : Z) (hist : list Z) :
  (0 <= w)%Z -> spaced hist -> Forall (fun x => (x <= now)%Z) hist ->
  (startups_in_window now w hist <= w / 2 + 1)%Z.
Proof.
  intros Hw. induction hist as [|e hist IH]; intros Hs Hf.
  - cbn. pose proof (Z.div_pos w 2). lia.
  - cbn [startups_in_window].
    destruct (Z.leb_spec (now - w) e) as [Hin|Hout].
    + pose proof (spaced_span e now hist Hs Hf) as Hspan.
      pose proof (startups_in_window_le_length now w hist) as Hlen.
      assert (2 * Z.of_nat (length hist) <= w)%Z by lia.
      assert (Z.of_nat (length hist) <= w / 2)%Z
        by (apply Z.div_le_lower_bound; lia).
      lia.
    + destruct Hs as [_ Hs]. inversion Hf; subst.
      specialize (IH Hs H2). lia.
Qed.

Lemma history_ok_window_count (t last w : Z) (hist : list Z) :
  (0 <= w)%Z -> history_ok t last hist ->
  (0 <= startups_in_window t w hist <= w / 2 + 1)%Z.
Proof.
  intros Hw (_ & Hsp & Hin & _). split.
  - apply startups_in_window_le_length.
  - apply spaced_window_count; [exact Hw | exact Hsp |].
    eapply Forall_impl; [|exact Hin]. cbn. intros; lia.
Qed.

(** ** The configuration *)

Lemma v1_execute_config (s : V1.Env) (a : Z) :
  v1_config (fst (V1.execute s a)) = v1_config s.
Proof.
  destruct (valid_action a) eqn:Ha.
  - rewrite (v1_execute_valid s a Ha). reflexivity.
  - unfold V1.execute. rewrite Ha. reflexivity.
Qed.

Lemma v2_execute_config (s : V2.Env) (a : Z) :
  v2_config (fst (V2.execute s a)) = v2_config s.
Proof.
  destruct (valid_action a) eqn:Ha.
  - rewrite (v2_step_state s a Ha). reflexivity.
  - unfold V2.execute. rewrite Ha. reflexivity.
Qed.

Lemma v3_execute_config (s : V3.Env) (a : Z) :
  v3_config (fst (V3.execute s a)) = v3_config s.
Proof.
  destruct (valid_action a) eqn:Ha.
  - rewrite (v3_step_state s a Ha). reflexivity.
  - unfold V3.execute. rewrite Ha. reflexivity.
Qed.

Lemma v1_run_config (acts : list Z) :
  forall s, v1_config (run_state V1.execute s acts) = v1_config s.
Proof.
  induction acts as [|a acts IH]; intro s; [reflexivity|].
  cbn [run_state fold_left]. fold (run_state V1.execute (fst (V1.execute s a)) acts).
  rewrite IH. apply v1_execute_config.
Qed.

Lemma v2_run_config (acts : list Z) :
  forall s, v2_config (run_state V2.execute s acts) = v2_config s.
Proof.
  induction acts as [|a acts IH]; intro s; [reflexivity|].
  cbn [run_state fold_left]. fold (run_state V2.execute (fst (V2.execute s a)) acts).
  rewrite IH. apply v2_execute_config.
Qed.

Lemma v3_run_config (acts : list Z) :
  forall s, v3_config (run_state V3.execute s acts) = v3_config s.
Proof.
  induction acts as [|a acts IH]; intro s; [reflexivity|].
  cbn [run_state fold_left]. fold (run_state V3.execute (fst (V3.execute s a)) acts).
  rewrite IH. apply v3_execute_config.
Qed.

(** X5. [reset] forgets the episode: whatever calls were made before it,
    valid or not, a [reset] leaves the object, and returns the
    observation, that a [reset] of the untouched object would have. Only
    the fields set once by [__init__] survive, and no call changes them. *)
Theorem reset_forgets_episode (sample : R) (acts : list Z) :
  (forall s, V1.reset (run_state V1.execute s acts) sample
             = V1.reset s sample) /\
  (forall s, V2.reset (run_state V2.execute s acts) sample
             = V2.reset s sample) /\
  (forall s, V3.reset (run_state V3.execute s acts) sample
             = V3.reset s sample) /\
  (forall s, v1_config (run_state V1.execute s acts) = v1_config s) /\
  (forall s, v2_config (run_state V2.execute s acts) = v2_config s) /\
  (forall s, v3_config (run_state V3.execute s acts) = v3_config s).
Proof.
  repeat split; intro s;
    try apply v1_run_config; try apply v2_run_config;
    try apply v3_run_config.
  - pose proof (v1_run_config acts s) as H. unfold v1_config in H.
    unfold V1.reset. cbn [V1.tau V1.timestep V1.current_temp].
    rewrite H. reflexivity.
  - pose proof (v2_run_config acts s) as H. unfold v2_config in H.
    injection H as H1 H2 H3 H4 H5.
    unfold V2.reset, V2.set_current_temp, V2.set_off_to_on,
      V2.set_last_heater_state, V2.set_timestep.
    cbn [V2.tau V2.timestep V2.current_temp V2.max_timestep
         V2.exceed_toggle_on_reward V2.last_heater_state
         V2.max_toggle_ons V2.window_toggle_ons V2.off_to_on].
    rewrite H1, H2, H3, H4, H5. reflexivity.
  - pose proof (v3_run_config acts s) as H. unfold v3_config in H.
    injection H as H1 H2 H3 H4 H5.
    unfold V3.reset, V3.observation, V3.set_current_temp, V3.set_off_to_on,
      V3.set_last_heater_state, V3.set_timestep, V3.set_toggle_ons_left.
    cbn [V3.tau V3.timestep V3.current_temp V3.max_timestep
         V3.exceed_toggle_on_reward V3.last_heater_state
         V3.max_toggle_ons V3.window_toggle_ons V3.off_to_on
         V3.toggle_ons_left].
    rewrite H1, H2, H3, H4, H5. reflexivity.
Qed.

(** ** The budget along an episode *)

Lemma v3_run_budget (acts : list Z) :
  all_valid acts ->
  forall s,
    V3.toggle_ons_left s
    = (V3.max_toggle_ons s
       - startups_in_window (V3.timestep s) (V3.window_toggle_ons s)
                            (V3.off_to_on s))%Z ->
    V3.toggle_ons_left (run_state V3.execute s acts)
    = (V3.max_toggle_ons s
       - startups_in_window
           (V3.timestep (run_state V3.execute s acts))
           (V3.window_toggle_ons s)
           (V3.off_to_on (run_state V3.execute s acts)))%Z.
Proof.
  induction 1 as [|a acts Ha _ IH]; intros s Hb; [exact Hb|].
  cbn [run_state fold_left].
  fold (run_state V3.execute (fst (V3.execute s a)) acts).
  pose proof (v3_step_state s a Ha) as Hs1. cbv zeta in Hs1.
  assert (H1 : V3.max_toggle_ons (fst (V3.execute s a))
               = V3.max_toggle_ons s /\
               V3.window_toggle_ons (fst (V3.execute s a))
               = V3.window_toggle_ons s /\
               V3.toggle_ons_left (fst (V3.execute s a))
               = (V3.max_toggle_ons (fst (V3.execute s a))
                  - startups_in_window
                      (V3.timestep (fst (V3.execute s a)))
                      (V3.window_toggle_ons (fst (V3.execute s a)))
                      (V3.off_to_on (fst (V3.execute s a))))%Z)
    by (rewrite Hs1; repeat split; reflexivity).
  destruct H1 as (Hm & Hw & Hb1).
  rewrite (IH _ Hb1), Hm, Hw. reflexivity.
Qed.

(** X6. The budget the explicit-state environment shows is bounded: along an
    episode, with a window of non-negative width [w], [toggle_ons_left]
    stays between [max_toggle_ons - (w / 2 + 1)] and [max_toggle_ons]
    (between -3 and 3 for the values of [__init__]). *)
Theorem v3_budget_bounds (s : V3.Env) (sample : R) (acts : list Z) :
  all_valid acts -> (0 <= V3.window_toggle_ons s)%Z ->
  let s' := run_state V3.execute (fst (V3.reset s sample)) acts in
  (V3.max_toggle_ons s - (V3.window_toggle_ons s / 2 + 1)
   <= V3.toggle_ons_left s' <= V3.max_toggle_ons s)%Z.
Proof.
  intros Hv Hw. cbv zeta.
  assert (Hb0 : V3.toggle_ons_left (fst (V3.reset s sample))
                = (V3.max_toggle_ons (fst (V3.reset s sample))
                   - startups_in_window
                       (V3.timestep (fst (V3.reset s sample)))
                       (V3.window_toggle_ons (fst (V3.reset s sample)))
                       (V3.off_to_on (fst (V3.reset s sample))))%Z)
    by (cbn; lia).
  rewrite (v3_run_budget acts Hv _ Hb0).
  pose proof (v3_history_ok_run acts Hv _
                (history_ok_reset _ : history_ok
                   (V3.timestep (fst (V3.reset s sample)))
                   (V3.last_heater_state (fst (V3.reset s sample)))
                   (V3.off_to_on (fst (V3.reset s sample))))) as Hok.
  cbv zeta in Hok.
  change (V3.max_toggle_ons (fst (V3.reset s sample)))
    with (V3.max_toggle_ons s).
  change (V3.window_toggle_ons (fst (V3.reset s sample)))
    with (V3.window_toggle_ons s).
  pose proof (history_ok_window_count _ _ (V3.window_toggle_ons s) _
                                      Hw Hok).
  lia.
Qed.

Lemma v3_budget_bounds_witness :
  let acts := alternating 8 in
  let s' := run_state V3.execute (fst (V3.reset V3.init 0.5)) acts in
  all_valid acts /\ (0 <= V3.window_toggle_ons V3.init)%Z /\
  (-3 <= V3.toggle_ons_left s' <= 3)%Z.
Proof.
  intros acts s'.
  assert (Hv : all_valid acts) by (repeat constructor).
  assert (Hw : (0 <= V3.window_toggle_ons V3.init)%Z) by (cbn; lia).
  exact (conj Hv (conj Hw (v3_budget_bounds V3.init 0.5 acts Hv Hw))).
Defined.

(** X7. A window too short for more than [max_toggle_ons] spaced start-ups
    ([w / 2 + 1 <= max_toggle_ons]) is never overrun: at every call of an
    episode the max start-ups environment returns the dead-band reward and
    a [terminal] flag that only says whether the time limit is passed, and
    so does the explicit-state environment. *)
Theorem roomy_budget_never_overrun (sample : R) (acts : list Z) (a : Z) :
  all_valid acts -> valid_action a = true ->
  (forall s : V2.Env,
     (0 <= V2.window_toggle_ons s)%Z ->
     (V2.window_toggle_ons s / 2 + 1 <= V2.max_toggle_ons s)%Z ->
     let s' := run_state V2.execute (fst (V2.reset s sample)) acts in
     snd (V2.execute s' a)
     = Returned (V2.current_temp (fst (V2.execute s' a)),
                 (V2.timestep s' + 1 >? V2.max_timestep s)%Z,
                 V2.reward_compute (fst (V2.execute s' a)))) /\
  (forall s : V3.Env,
     (0 <= V3.window_toggle_ons s)%Z ->
     (V3.window_toggle_ons s / 2 + 1 <= V3.max_toggle_ons s)%Z ->
     let s' := run_state V3.execute (fst (V3.reset s sample)) acts in
     snd (V3.execute s' a)
     = Returned (V3.observation (fst (V3.execute s' a)),
                 (V3.timestep s' + 1 >? V3.max_timestep s)%Z,
                 V3.reward_compute (fst (V3.execute s' a)))).
Proof.
  intros Hv Ha. split; intros s Hw Hroom; cbv zeta.
  - set (s' := run_state V2.execute (fst (V2.reset s sample)) acts).
    pose proof (v2_history_ok_run acts Hv _
                  (history_ok_reset _ : history_ok
                     (V2.timestep (fst (V2.reset s sample)))
                     (V2.last_heater_state (fst (V2.reset s sample)))
                     (V2.off_to_on (fst (V2.reset s sample))))) as Hok.
    cbv zeta in Hok. fold s' in Hok.
    pose proof (v2_run_config acts (fst (V2.reset s sample))) as Hcfg.
    fold s' in Hcfg. unfold v2_config in Hcfg.
    injection Hcfg as _ Hmt _ Hmx Hwin.
    cbn in Hmt, Hmx, Hwin.
    pose proof (history_ok_step _ _ a _ Ha Hok) as Hok'.
    pose proof (history_ok_window_count _ _ (V2.window_toggle_ons s) _
                                        Hw Hok') as Hcount.
    rewrite (v2_step_result s' a Ha). cbv zeta.
    rewrite Hwin, Hmx, Hmt.
    destruct (Z.gtb_spec
                (startups_in_window (V2.timestep s' + 1)
                   (V2.window_toggle_ons s)
                   (record_startup (V2.last_heater_state s') a
                      (V2.timestep s' + 1) (V2.off_to_on s')))
                (V2.max_toggle_ons s)) as [Hgt|_]; [lia|].
    assert (HT : V2.current_temp (fst (V2.execute s' a))
                 = respond a (V2.current_temp s') (V2.tau s'))
      by (rewrite (v2_step_state s' a Ha); reflexivity).
    rewrite HT.
    destruct (V2.timestep s' + 1 >? V2.max_timestep s)%Z; reflexivity.
  - set (s' := run_state V3.execute (fst (V3.reset s sample)) acts).
    pose proof (v3_history_ok_run acts Hv _
                  (history_ok_reset _ : history_ok
                     (V3.timestep (fst (V3.reset s sample)))
                     (V3.last_heater_state (fst (V3.reset s sample)))
                     (V3.off_to_on (fst (V3.reset s sample))))) as Hok.
    cbv zeta in Hok. fold s' in Hok.
    pose proof (v3_run_config acts (fst (V3.reset s sample))) as Hcfg.
    fold s' in Hcfg. unfold v3_config in Hcfg.
    injection Hcfg as _ Hmt _ Hmx Hwin.
    cbn in Hmt, Hmx, Hwin.
    pose proof (history_ok_step _ _ a _ Ha Hok) as Hok'.
    pose proof (history_ok_window_count _ _ (V3.window_toggle_ons s) _
                                        Hw Hok') as Hcount.
    rewrite (v3_step_result s' a Ha). cbv zeta.
    rewrite Hwin, Hmx, Hmt.
    destruct (Z.ltb_spec
                (V3.max_toggle_ons s -
                 startups_in_window (V3.timestep s' + 1)
                   (V3.window_toggle_ons s)
                   (record_startup (V3.last_heater_state s') a
                      (V3.timestep s' + 1) (V3.off_to_on s')))
                0) as [Hlt|_]; [lia|].
    assert (HO : V3.observation (fst (V3.execute s' a))
                 = (respond a (V3.current_temp s') (V3.tau s'),
                    IZR (V3.max_toggle_ons s -
                         startups_in_window (V3.timestep s' + 1)
                           (V3.window_toggle_ons s)
                           (record_startup (V3.last_heater_state s') a
                              (V3.timestep s' + 1) (V3.off_to_on s'))))).
    { rewrite (v3_step_state s' a Ha). cbv zeta. unfold V3.observation.
      cbn [V3.current_temp V3.toggle_ons_left].
      rewrite Hwin, Hmx. reflexivity. }
    rewrite HO.
    destruct (V3.timestep s' + 1 >? V3.max_timestep s)%Z; reflexivity.
Qed.

Lemma roomy_budget_never_overrun_witness :
  let s := V2.mkEnv 3.0 0.0 0 200 (- 50.0) 0 3 4 [] in
  let s' := run_state V2.execute (fst (V2.reset s 0.5)) (alternating 3) in
  all_valid (alternating 3) /\ valid_action 1 = true /\
  (0 <= V2.window_toggle_ons s)%Z /\
  (V2.window_toggle_ons s / 2 + 1 <= V2.max_toggle_ons s)%Z /\
  snd (V2.execute s' 1)
  = Returned (V2.current_temp (fst (V2.execute s' 1)),
              (V2.timestep s' + 1 >? V2.max_timestep s)%Z,
              V2.reward_compute (fst (V2.execute s' 1))).
Proof.
  intros s s'.
  assert (Hv : all_valid (alternating 3)) by (repeat constructor).
  assert (Ha : valid_action 1 = true) by reflexivity.
  assert (Hw : (0 <= V2.window_toggle_ons s)%Z) by (cbn; lia).
  assert (Hr : (V2.window_toggle_ons s / 2 + 1 <= V2.max_toggle_ons s)%Z)
    by (cbn; lia).
  exact (conj Hv (conj Ha (conj Hw (conj Hr
    (proj1 (roomy_budget_never_overrun 0.5 (alternating 3) 1 Hv Ha)
           s Hw Hr))))).
Defined.

(** ** How the budget moves from one call to the next *)

Lemma startups_in_window_slide (now w : Z) (hist : list Z) :
  (startups_in_window (now + 1) w hist <= startups_in_window now w hist)%Z.
Proof.
  induction hist as [|e hist IH]; cbn [startups_in_window]; [lia|].
  destruct (Z.leb_spec (now + 1 - w) e), (Z.leb_spec (now - w) e); lia.
Qed.

Lemma record_startup_count (last a now w : Z) (hist : list Z) :
  (startups_in_window now w hist
   <= startups_in_window now w (record_startup last a now hist)
   <= startups_in_window now w hist + 1)%Z
  /\ (a = 0%Z \/ last <> 0%Z ->
      startups_in_window now w (record_startup last a now hist)
      = startups_in_window now w hist).
Proof.
  unfold record_startup.
  destruct (Z.eq_dec a 1) as [->|Hn];
    [destruct (Z.eq_dec last 0) as [Hl|Hl]|].
  - rewrite startups_in_window_app. cbn [startups_in_window].
    split; [destruct (now - w <=? now)%Z; lia|].
    intros [H|H]; [discriminate H | contradiction].
  - split; [lia | reflexivity].
  - split; [lia | reflexivity].
Qed.

(** X8. The explicit-state environment, two valid calls in a row: the second
    lowers [toggle_ons_left] by at most one, and does not lower it at all
    unless it switches the heater on (action 1 after action 0). *)
Theorem v3_budget_drops_by_at_most_one (s : V3.Env) (a1 a2 : Z) :
  valid_action a1 = true -> valid_action a2 = true ->
  let s1 := fst (V3.execute s a1) in
  let s2 := fst (V3.execute s1 a2) in
  (V3.toggle_ons_left s1 - 1 <= V3.toggle_ons_left s2)%Z /\
  (a2 = 0%Z \/ a1 = 1%Z ->
   (V3.toggle_ons_left s1 <= V3.toggle_ons_left s2)%Z).
Proof.
  intros H1 H2. cbv zeta.
  pose proof (v3_step_state (fst (V3.execute s a1)) a2 H2) as E2.
  cbv zeta in E2. rewrite E2. cbn [V3.toggle_ons_left]. clear E2.
  pose proof (v3_step_state s a1 H1) as E1. cbv zeta in E1.
  rewrite E1.
  cbn [V3.toggle_ons_left V3.timestep V3.max_toggle_ons
       V3.window_toggle_ons V3.last_heater_state V3.off_to_on].
  set (h1 := record_startup (V3.last_heater_state s) a1
                            (V3.timestep s + 1) (V3.off_to_on s)).
  pose proof (startups_in_window_slide (V3.timestep s + 1)
                (V3.window_toggle_ons s) h1) as Hslide.
  destruct (record_startup_count a1 a2 (V3.timestep s + 1 + 1)
              (V3.window_toggle_ons s) h1) as [[_ Hup] Hsame].
  split; [lia|].
  intros Hno. rewrite Hsame; [lia|].
  destruct Hno as [->| ->]; [left; reflexivity | right; lia].
Qed.

Lemma v3_budget_drops_by_at_most_one_witness :
  let s1 := fst (V3.execute V3.init 0) in
  let s2 := fst (V3.execute s1 1) in
  valid_action 0 = true /\ valid_action 1 = true /\
  (V3.toggle_ons_left s1 - 1 <= V3.toggle_ons_left s2)%Z.
Proof.
  intros s1 s2.
  assert (H0 : valid_action 0 = true) by reflexivity.
  assert (H1 : valid_action 1 = true) by reflexivity.
  exact (conj H0 (conj H1
    (proj1 (v3_budget_drops_by_at_most_one V3.init 0 1 H0 H1)))).
Defined.

(** X9. The max start-ups environment, two valid calls in a row: if the first
    did not end the episode and the second does not switch the heater on,
    the second returns the dead-band reward, and [terminal] only if the
    time limit is passed. The cut-off first strikes on a switch-on. *)
Theorem v2_cutoff_only_on_switch_on (s : V2.Env) (a1 a2 : Z) :
  valid_action a1 = true -> valid_action a2 = true ->
  let s1 := fst (V2.execute s a1) in
  terminal_of (snd (V2.execute s a1)) = Some false ->
  a2 = 0%Z \/ a1 = 1%Z ->
  snd (V2.execute s1 a2)
  = Returned (V2.current_temp (fst (V2.execute s1 a2)),
              (V2.timestep s1 + 1 >? V2.max_timestep s1)%Z,
              V2.reward_compute (fst (V2.execute s1 a2))).
Proof.
  intros H1 H2. cbv zeta. intros Hterm Hno.
  rewrite (v2_step_result s a1 H1) in Hterm. cbv zeta in Hterm.
  set (h1 := record_startup (V2.last_heater_state s) a1
                            (V2.timestep s + 1) (V2.off_to_on s)) in *.
  destruct (Z.gtb_spec
              (startups_in_window (V2.timestep s + 1)
                 (V2.window_toggle_ons s) h1) (V2.max_toggle_ons s))
    as [Hgt|Hle]; [discriminate Hterm|]. clear Hterm.
  assert (E1 : V2.timestep (fst (V2.execute s a1)) = (V2.timestep s + 1)%Z
               /\ V2.window_toggle_ons (fst (V2.execute s a1))
                  = V2.window_toggle_ons s
               /\ V2.max_toggle_ons (fst (V2.execute s a1))
                  = V2.max_toggle_ons s
               /\ V2.last_heater_state (fst (V2.execute s a1)) = a1
               /\ V2.off_to_on (fst (V2.execute s a1)) = h1)
    by (rewrite (v2_step_state s a1 H1); repeat split; reflexivity).
  destruct E1 as (Et & Ew & Em & El & Eh).
  rewrite (v2_step_result _ a2 H2). cbv zeta.
  assert (HT : V2.current_temp (fst (V2.execute (fst (V2.execute s a1)) a2))
               = respond a2 (V2.current_temp (fst (V2.execute s a1)))
                         (V2.tau (fst (V2.execute s a1))))
    by (rewrite (v2_step_state _ a2 H2); reflexivity).
  rewrite HT, Ew, Em, El, Eh, Et.
  pose proof (startups_in_window_slide (V2.timestep s + 1)
                (V2.window_toggle_ons s) h1) as Hslide.
  destruct (record_startup_count a1 a2 (V2.timestep s + 1 + 1)
              (V2.window_toggle_ons s) h1) as [_ Hsame].
  rewrite Hsame by (destruct Hno as [->| ->];
                    [left; reflexivity | right; lia]).
  destruct (Z.gtb_spec
              (startups_in_window (V2.timestep s + 1 + 1)
                 (V2.window_toggle_ons s) h1) (V2.max_toggle_ons s))
    as [Hgt|_]; [lia|].
  destruct (V2.timestep s + 1 + 1 >? V2.max_timestep _)%Z; reflexivity.
Qed.

Lemma v2_cutoff_only_on_switch_on_witness :
  let s := v2_three_startups 0.5 in
  let s1 := fst (V2.execute s 0) in
  valid_action 0 = true /\
  terminal_of (snd (V2.execute s 0)) = Some false /\
  (0 = 0 \/ 0 = 1)%Z /\
  snd (V2.execute s1 0)
  = Returned (V2.current_temp (fst (V2.execute s1 0)),
              (V2.timestep s1 + 1 >? V2.max_timestep s1)%Z,
              V2.reward_compute (fst (V2.execute s1 0))).
Proof.
  intros s s1.
  assert (H0 : valid_action 0 = true) by reflexivity.
  assert (Ht : terminal_of (snd (V2.execute s 0)) = Some false)
    by (lazy; reflexivity).
  assert (Hn : (0 = 0 \/ 0 = 1)%Z) by (left; reflexivity).
  exact (conj H0 (conj Ht (conj Hn
    (v2_cutoff_only_on_switch_on s 0 0 H0 H0 Ht Hn)))).
Defined.

(** ** The reward, seen from outside *)





(** ** The response, seen from outside *)






(** ** The bookkeeping along a run *)

Lemma v2_run_bookkeeping (acts : list Z) :
  all_valid acts ->
  forall s, v2_bookkeeping (run_state V2.execute s acts)
            = fold_left bookkeeping_step acts (v2_bookkeeping s).
Proof.
  induction 1 as [|a acts Ha _ IH]; intro s; [reflexivity|].
  cbn [run_state fold_left].
  fold (run_state V2.execute (fst (V2.execute s a)) acts).
  rewrite IH. f_equal. rewrite (v2_step_state s a Ha). reflexivity.
Qed.

Lemma v3_run_bookkeeping (acts : list Z) :
  all_valid acts ->
  forall s, v3_bookkeeping (run_state V3.execute s acts)
            = fold_left bookkeeping_step acts (v3_bookkeeping s).
Proof.
  induction 1 as [|a acts Ha _ IH]; intro s; [reflexivity|].
  cbn [run_state fold_left].
  fold (run_state V3.execute (fst (V3.execute s a)) acts).
  rewrite IH. f_equal. rewrite (v3_step_state s a Ha). reflexivity.
Qed.

Lemma switch_on_calls_snoc (acts : list Z) (a : Z) :
  switch_on_calls (acts ++ [a])
  = switch_on_calls acts
    ++ (if (a =? 1)%Z
           && ((length acts =? 0)%nat
               || (nth (length acts - 1) acts 1 =? 0)%Z)
        then [Z.of_nat (S (length acts))] else []).
Proof.
  unfold switch_on_calls.
  rewrite length_app. cbn [length]. rewrite Nat.add_1_r.
  rewrite seq_S, filter_app, map_app. cbn [Nat.add filter].
  f_equal.
  - f_equal. apply filter_ext_in. intros i Hi. apply in_seq in Hi.
    rewrite app_nth1 by lia.
    destruct (Nat.eqb_spec i 1) as [->|Hne]; [reflexivity|].
    rewrite app_nth1 by lia. reflexivity.
  - replace (S (length acts) - 1)%nat with (length acts) by lia.
    rewrite nth_middle.
    replace (S (length acts) - 2)%nat with (length acts - 1)%nat by lia.
    destruct (length acts) as [|n] eqn:Hlen.
    + cbn [Nat.eqb orb]. rewrite !andb_true_r.
      destruct (a =? 1)%Z; reflexivity.
    + cbn [Nat.eqb orb]. rewrite app_nth1 by lia.
      destruct ((a =? 1)%Z && (nth (S n - 1) acts 1 =? 0)%Z); reflexivity.
Qed.

(** From a fresh history: the timestep counts the calls, the heater state
    is the last action, and the history lists the switch-on calls. *)
Lemma bookkeeping_from_reset (acts : list Z) :
  fold_left bookkeeping_step acts (0%Z, 0%Z, [])
  = (Z.of_nat (length acts),
     match acts with
     | [] => 0%Z
     | _ => nth (length acts - 1) acts 1%Z
     end,
     switch_on_calls acts).
Proof.
  induction acts as [|a acts IH] using rev_ind; [reflexivity|].
  rewrite fold_left_app, IH. cbn [fold_left bookkeeping_step].
  rewrite switch_on_calls_snoc, length_app. cbn [length].
  replace (Z.of_nat (length acts) + 1)%Z
    with (Z.of_nat (length acts + 1)) by lia.
  replace (length acts + 1 - 1)%nat with (length acts) by lia.
  rewrite nth_middle.
  replace (Z.of_nat (S (length acts)))
    with (Z.of_nat (length acts + 1)) by lia.
  f_equal; [f_equal; destruct acts; reflexivity|].
  unfold record_startup.
  destruct acts as [|x acts'] eqn:E.
  - cbn [length Nat.eqb orb app]. rewrite andb_true_r.
    destruct (Z.eq_dec a 1) as [->|Hn]; [reflexivity|].
    apply Z.eqb_neq in Hn. rewrite Hn. reflexivity.
  - rewrite <- E in *.
    assert (Hlen : (length acts =? 0)%nat = false)
      by (apply Nat.eqb_neq; rewrite E; cbn; lia).
    rewrite Hlen. cbn [orb].
    destruct (Z.eq_dec a 1) as [->|Hn].
    + cbn [Z.eqb andb].
      destruct (Z.eq_dec (nth (length acts - 1) acts 1%Z) 0) as [E0|E0].
      * rewrite E0. reflexivity.
      * apply Z.eqb_neq in E0. rewrite E0. rewrite app_nil_r. reflexivity.
    + apply Z.eqb_neq in Hn. rewrite Hn. cbn [andb].
      rewrite app_nil_r. reflexivity.
Qed.

(** X14. What an episode leaves behind, read off its actions: [timestep] is
    the number of calls, [last_heater_state] the last action (0 before the
    first call), and [off_to_on] lists, in order, the numbers of the calls
    with action 1 that follow a call with action 0 or open the episode. *)
Theorem episode_bookkeeping (sample : R) (acts : list Z) :
  all_valid acts ->
  (forall s : V2.Env,
     let s' := run_state V2.execute (fst (V2.reset s sample)) acts in
     V2.timestep s' = Z.of_nat (length acts) /\
     V2.last_heater_state s' = last acts 0%Z /\
     V2.off_to_on s' = switch_on_calls acts) /\
  (forall s : V3.Env,
     let s' := run_state V3.execute (fst (V3.reset s sample)) acts in
     V3.timestep s' = Z.of_nat (length acts) /\
     V3.last_heater_state s' = last acts 0%Z /\
     V3.off_to_on s' = switch_on_calls acts).
Proof.
  intro Hv.
  assert (Hlast : match acts with
                  | [] => 0%Z
                  | _ => nth (length acts - 1) acts 1%Z
                  end = last acts 0%Z).
  { destruct acts as [|x acts'] eqn:E; [reflexivity|]. rewrite <- E.
    assert (Hne : acts <> []) by (rewrite E; discriminate).
    destruct (exists_last Hne) as (l & y & ->).
    rewrite last_last, length_app. cbn [length].
    replace (length l + 1 - 1)%nat with (length l) by lia.
    apply nth_middle. }
  split; intro s; cbv zeta.
  - pose proof (v2_run_bookkeeping acts Hv (fst (V2.reset s sample))) as H.
    change (v2_bookkeeping (fst (V2.reset s sample)))
      with (0%Z, 0%Z, @nil Z) in H.
    rewrite bookkeeping_from_reset, Hlast in H.
    unfold v2_bookkeeping in H. injection H as H1 H2 H3.
    repeat split; assumption.
  - pose proof (v3_run_bookkeeping acts Hv (fst (V3.reset s sample))) as H.
    change (v3_bookkeeping (fst (V3.reset s sample)))
      with (0%Z, 0%Z, @nil Z) in H.
    rewrite bookkeeping_from_reset, Hlast in H.
    unfold v3_bookkeeping in H. injection H as H1 H2 H3.
    repeat split; assumption.
Qed.

Lemma episode_bookkeeping_witness :
  let acts := [1; 0; 1; 0; 1; 0; 1; 1; 1]%Z in
  let s' := run_state V3.execute (fst (V3.reset V3.init 0.5)) acts in
  all_valid acts /\
  V3.timestep s' = 9%Z /\ V3.last_heater_state s' = 1%Z /\
  V3.off_to_on s' = [1; 3; 5; 7]%Z.
Proof.
  intros acts s'.
  assert (Hv : all_valid acts) by (repeat constructor).
  exact (conj Hv (proj2 (episode_bookkeeping 0.5 acts Hv) V3.init)).
Defined.

(** ** How long an episode lasts *)

(** X15. Counting the calls of an episode from 1: the bang-bang environment
    returns [terminal = False] at calls 1 to 5 and [True] from call 6 on;
    the max start-ups environment returns [True] at every call after
    call [max_timestep], so an episode driven until [terminal] makes at most
    [max_timestep + 1] calls. *)
Theorem episode_length (sample : R) (acts : list Z) (i : nat) :
  all_valid acts -> (i < length acts)%nat ->
  (forall s : V1.Env,
     terminal_at V1.execute (fst (V1.reset s sample)) acts i
     = Some (5 <? Z.of_nat (S i))%Z) /\
  (forall s : V2.Env,
     (V2.max_timestep s < Z.of_nat (S i))%Z ->
     terminal_at V2.execute (fst (V2.reset s sample)) acts i = Some true).
Proof.
  intros Hv Hi. split; intro s.
  - rewrite (v1_terminal_at acts Hv) by exact Hi.
    cbn [V1.reset fst V1.timestep]. f_equal.
    rewrite Z.gtb_ltb. f_equal. lia.
  - intro Hlim. apply (v2_terminal_past_limit acts Hv); [exact Hi|].
    cbn. lia.
Qed.

Lemma episode_length_witness :
  let acts := [1; 1; 0; 0; 1; 0; 1]%Z in
  all_valid acts /\ (5 < length acts)%nat /\
  terminal_at V1.execute (fst (V1.reset V1.init 0.5)) acts 4 = Some false /\
  terminal_at V1.execute (fst (V1.reset V1.init 0.5)) acts 5 = Some true.
Proof.
  intro acts.
  assert (Hv : all_valid acts) by (repeat constructor).
  assert (H4 : (4 < length acts)%nat) by (cbn; lia).
  assert (H5 : (5 < length acts)%nat) by (cbn; lia).
  exact (conj Hv (conj H5 (conj
    (proj1 (episode_length 0.5 acts 4 Hv H4) V1.init)
    (proj1 (episode_length 0.5 acts 5 Hv H5) V1.init)))).
Defined.

(** ** An episode that does not end *)

Lemma v3_terminal_false (s : V3.Env) (a : Z) :
  valid_action a = true ->
  (V3.toggle_ons_left (fst (V3.execute s a)) < 0)%Z
  \/ (V3.timestep s + 1 <= V3.max_timestep s)%Z ->
  terminal_of (snd (V3.execute s a)) = Some false.
Proof.
  intros Ha H.
  destruct (terminal_of (snd (V3.execute s a))) as [[|]|] eqn:E.
  - apply (v3_terminal_iff s a Ha) in E. lia.
  - reflexivity.
  - rewrite (v3_execute_valid s a Ha) in E. cbn [snd] in E.
    destruct (_ <? 0)%Z; [discriminate E|].
    destruct (_ >? _)%Z; discriminate E.
Qed.

(** Four start-ups of the history inside the window leave less than
    nothing of a budget of at most three. *)
Lemma four_startups_in_window (now w : Z) (hist : list Z) (e : Z) :
  In e hist -> In (e + 2)%Z hist -> In (e + 4)%Z hist ->
  In (e + 6)%Z hist -> (now - w <= e)%Z ->
  (4 <= startups_in_window now w hist)%Z.
Proof.
  intros H0 H2 H4 H6 Hw.
  rewrite <- startups_in_window_filter.
  assert (Hincl : incl [e; e + 2; e + 4; e + 6]%Z
                       (filter (fun x => (now - x <=? w)%Z) hist)).
  { intros x Hx. apply filter_In. cbn in Hx.
    destruct Hx as [<-|[<-|[<-|[<-|[]]]]]; split;
      try assumption; apply Z.leb_le; lia. }
  assert (Hnd : NoDup [e; e + 2; e + 4; e + 6]%Z).
  { repeat constructor; cbn; lia. }
  pose proof (NoDup_incl_length Hnd Hincl) as Hlen. cbn in Hlen. lia.
Qed.

Lemma v3_alternating_pair (cfg s : V3.Env) :
  (7 <= V3.window_toggle_ons cfg)%Z ->
  (V3.max_toggle_ons cfg <= 3)%Z ->
  (6 <= V3.max_timestep cfg)%Z ->
  alternating_inv cfg s ->
  let s1 := fst (V3.execute s 1) in
  let s2 := fst (V3.execute s1 0) in
  terminal_of (snd (V3.execute s 1)) = Some false /\
  terminal_of (snd (V3.execute s1 0)) = Some false /\
  alternating_inv cfg s2.
Proof.
  intros Hw Hm Ht (Hcfg & Hlast & k & Hk & Htk & Hodd). cbv zeta.
  pose proof Hcfg as Hcfg'.
  unfold v3_config in Hcfg. injection Hcfg as _ Emt _ Emx Ewin.
  assert (H1 : valid_action 1 = true) by reflexivity.
  assert (H0 : valid_action 0 = true) by reflexivity.
  pose proof (v3_step_state s 1 H1) as E1. cbv zeta in E1.
  unfold record_startup in E1. rewrite Hlast, Htk, Emx, Ewin in E1.
  cbn [Z.eq_dec] in E1.
  destruct (Z.eq_dec 1 1) as [_|Hne]; [|contradiction].
  destruct (Z.eq_dec 0 0) as [_|Hne]; [|contradiction].
  set (s1 := fst (V3.execute s 1)) in *.
  set (hist1 := (V3.off_to_on s ++ [(2 * k + 1)%Z])) in *.
  assert (Hodd1 : forall j, (1 <= j <= k + 1)%Z ->
                            In (2 * j - 1)%Z hist1).
  { intros j Hj. apply in_or_app.
    destruct (Z.eq_dec j (k + 1)) as [->|Hn].
    - right. left. lia.
    - left. apply Hodd. lia. }
  assert (F1 : V3.timestep s1 = (2 * k + 1)%Z /\
               V3.last_heater_state s1 = 1%Z /\
               V3.off_to_on s1 = hist1 /\
               V3.max_timestep s1 = V3.max_timestep cfg /\
               V3.max_toggle_ons s1 = V3.max_toggle_ons cfg /\
               V3.window_toggle_ons s1 = V3.window_toggle_ons cfg /\
               V3.toggle_ons_left s1
               = (V3.max_toggle_ons cfg
                  - startups_in_window (2 * k + 1)
                      (V3.window_toggle_ons cfg) hist1)%Z).
  { rewrite E1. cbn. rewrite Emt. repeat split; reflexivity. }
  destruct F1 as (T1 & L1 & O1 & MT1 & MX1 & W1 & B1).
  pose proof (v3_step_state s1 0 H0) as E2. cbv zeta in E2.
  unfold record_startup in E2. rewrite T1, L1, O1, MX1, W1 in E2.
  destruct (Z.eq_dec 0 1) as [Hne|_]; [discriminate Hne|].
  set (s2 := fst (V3.execute s1 0)) in *.
  pose proof (v3_execute_config s1 0) as C2. fold s2 in C2.
  pose proof (v3_execute_config s 1) as C1. fold s1 in C1.
  assert (B2 : V3.toggle_ons_left s2
               = (V3.max_toggle_ons cfg
                  - startups_in_window (2 * k + 1 + 1)
                      (V3.window_toggle_ons cfg) hist1)%Z)
    by (rewrite E2; reflexivity).
  assert (F2 : V3.timestep s2 = (2 * k + 1 + 1)%Z /\
               V3.last_heater_state s2 = 0%Z /\
               V3.off_to_on s2 = hist1)
    by (rewrite E2; repeat split; reflexivity).
  destruct F2 as (T2 & L2 & O2).
  split; [|split].
  - apply (v3_terminal_false s 1 H1). fold s1.
    destruct (Z.le_gt_cases (V3.timestep s + 1) (V3.max_timestep s))
      as [Hle|Hgt]; [right; exact Hle | left].
    rewrite B1.
    assert (4 <= startups_in_window (2 * k + 1)
                   (V3.window_toggle_ons cfg) hist1)%Z; [|lia].
    apply (four_startups_in_window _ _ _ (2 * (k - 2) - 1)); try lia.
    + apply Hodd1. lia.
    + replace (2 * (k - 2) - 1 + 2)%Z with (2 * (k - 1) - 1)%Z by lia.
      apply Hodd1. lia.
    + replace (2 * (k - 2) - 1 + 4)%Z with (2 * k - 1)%Z by lia.
      apply Hodd1. lia.
    + replace (2 * (k - 2) - 1 + 6)%Z with (2 * (k + 1) - 1)%Z by lia.
      apply Hodd1. lia.
  - apply (v3_terminal_false s1 0 H0). fold s2.
    destruct (Z.le_gt_cases (V3.timestep s1 + 1) (V3.max_timestep s1))
      as [Hle|Hgt]; [right; exact Hle | left].
    rewrite B2.
    assert (4 <= startups_in_window (2 * k + 1 + 1)
                   (V3.window_toggle_ons cfg) hist1)%Z; [|lia].
    apply (four_startups_in_window _ _ _ (2 * (k - 2) - 1)); try lia.
    + apply Hodd1. lia.
    + replace (2 * (k - 2) - 1 + 2)%Z with (2 * (k - 1) - 1)%Z by lia.
      apply Hodd1. lia.
    + replace (2 * (k - 2) - 1 + 4)%Z with (2 * k - 1)%Z by lia.
      apply Hodd1. lia.
    + replace (2 * (k - 2) - 1 + 6)%Z with (2 * (k + 1) - 1)%Z by lia.
      apply Hodd1. lia.
  - split; [|split].
    + rewrite C2, C1. exact Hcfg'.
    + exact L2.
    + exists (k + 1)%Z. rewrite T2, O2.
      split; [lia | split; [lia | exact Hodd1]].
Qed.

Lemma alternating_length (n : nat) : length (alternating n) = (2 * n)%nat.
Proof. induction n as [|n IH]; cbn [alternating length]; lia. Qed.

Lemma alternating_valid (n : nat) : all_valid (alternating n).
Proof.
  induction n as [|n IH]; cbn [alternating]; repeat constructor.
  exact IH.
Qed.

Lemma v3_alternating_run (cfg : V3.Env) (n : nat) :
  (7 <= V3.window_toggle_ons cfg)%Z ->
  (V3.max_toggle_ons cfg <= 3)%Z ->
  (6 <= V3.max_timestep cfg)%Z ->
  forall s i, alternating_inv cfg s -> (i < 2 * n)%nat ->
    terminal_at V3.execute s (alternating n) i = Some false.
Proof.
  intros Hw Hm Ht. induction n as [|n IH]; intros s i Hinv Hi; [lia|].
  destruct (v3_alternating_pair cfg s Hw Hm Ht Hinv) as (F1 & F2 & Hinv').
  cbn [alternating].
  destruct i as [|[|i]].
  - rewrite terminal_at_head. exact F1.
  - rewrite terminal_at_tail, terminal_at_head. exact F2.
  - rewrite !terminal_at_tail. apply IH; [exact Hinv' | lia].
Qed.

(** X16. The explicit-state environment under a heater switched on and off in
    turns, for any configuration with a window of at least 7, a budget of
    at most 3 and a time limit of at least 6 (that of [__init__] is one):
    however long the run, no call returns [terminal = True]. Past the time
    limit the budget is negative at every call, and the penalty return
    comes first. *)
Theorem v3_alternating_never_terminal
        (s : V3.Env) (sample : R) (n i : nat) :
  (7 <= V3.window_toggle_ons s)%Z ->
  (V3.max_toggle_ons s <= 3)%Z ->
  (6 <= V3.max_timestep s)%Z ->
  (i < length (alternating n))%nat ->
  all_valid (alternating n) /\
  terminal_at V3.execute (fst (V3.reset s sample)) (alternating n) i
  = Some false.
Proof.
  intros Hw Hm Ht Hi. split; [apply alternating_valid|].
  rewrite alternating_length in Hi.
  apply (v3_alternating_run s n Hw Hm Ht); [|exact Hi].
  split; [reflexivity | split; [reflexivity|]].
  exists 0%Z. split; [lia | split; [reflexivity|]].
  intros j Hj. lia.
Qed.

Lemma v3_alternating_never_terminal_witness :
  (7 <= V3.window_toggle_ons V3.init)%Z /\
  (V3.max_toggle_ons V3.init <= 3)%Z /\
  (6 <= V3.max_timestep V3.init)%Z /\
  (119 < length (alternating 60))%nat /\
  terminal_at V3.execute (fst (V3.reset V3.init 0.5)) (alternating 60) 119
  = Some false.
Proof.
  assert (Hw : (7 <= V3.window_toggle_ons V3.init)%Z) by (cbn; lia).
  assert (Hm : (V3.max_toggle_ons V3.init <= 3)%Z) by (cbn; lia).
  assert (Ht : (6 <= V3.max_timestep V3.init)%Z) by (cbn; lia).
  assert (Hi : (119 < length (alternating 60))%nat)
    by (rewrite alternating_length; lia).
  exact (conj Hw (conj Hm (conj Ht (conj Hi
    (proj2 (v3_alternating_never_terminal V3.init 0.5 60 119
              Hw Hm Ht Hi)))))).
Defined.

(** ** Two episodes fed the same actions *)







Lemma response_series_recurrence_witness :
  (1 < length (repeat 1%Z 10 ++ repeat 0%Z 10))%nat /\
  nth 1 (response_series (repeat 1%Z 10 ++ repeat 0%Z 10)) 0
  = respond 1 (nth 0 (response_series (repeat 1%Z 10 ++ repeat 0%Z 10)) 0)
            3.0.
Proof.
  assert (H : (1 < length (repeat 1%Z 10 ++ repeat 0%Z 10))%nat)
    by (cbn; lia).
  exact (conj H
    (proj2 (response_series_recurrence (repeat 1%Z 10 ++ repeat 0%Z 10))
           1%nat H)).
Defined.

